(** * Report aggregation and export of the Smart Campus admin page

    A shallow embedding of [sc-frontend/src/pages/ReportGenerationPage.tsx]:
    the two date-range filters, the two aggregations feeding the charts
    ([getUserRegistrationData], [getAnnouncementActivityData]) and the PDF
    export ([downloadPDF]), together with the part of the ECMAScript
    runtime these functions lean on ([Date], string conversion of numbers,
    ordinary objects used as dictionaries). *)

From Stdlib Require Import ZArith List String Ascii Bool Lia.
From Stdlib Require Import Permutation Sorted OrdersEx DecimalString.
From Stdlib Require Import RelationClasses.
Import ListNotations.

Open Scope string_scope.
Open Scope Z_scope.

(* ===================================================================== *)
(** * The ECMAScript runtime the page relies on *)
(* ===================================================================== *)

(** ** Numbers that the page converts to strings

    Only integers and [NaN] ever reach a template literal of the page
    ([getFullYear()] and [getMonth() + 1]). *)

Inductive number : Type :=
| Int (z : Z)
| NaN.

(** [x + 1] on numbers: [NaN + 1] is [NaN]. *)
Definition number_add (x : number) (k : Z) : number :=
  match x with
  | Int z => Int (z + k)
  | NaN => NaN
  end.

(** [Number::toString] on the integers met here (decimal digits, a leading
    minus sign for negative values) and on [NaN]. *)
Definition ToString (x : number) : string :=
  match x with
  | Int z => NilZero.string_of_int (Z.to_int z)
  | NaN => "NaN"
  end.

(** ** Dates

    A [Date] object holds a time value: milliseconds since the epoch, or
    [NaN] for an invalid date. *)

Inductive Date : Type :=
| TimeValue (t : Z)
| InvalidDate.

Definition msPerDay : Z := 86400000.

Definition Day (t : Z) : Z := t / msPerDay.

Definition DayFromYear (y : Z) : Z :=
  365 * (y - 1970) + (y - 1969) / 4 - (y - 1901) / 100 + (y - 1601) / 400.

Definition DaysInYear (y : Z) : Z := DayFromYear (y + 1) - DayFromYear y.

(** The largest year whose first day is not after the day of [t]: a first
    guess from the mean length of a Gregorian year, off by at most one. *)
Definition YearFromDay (d : Z) : Z :=
  let y0 := 1970 + (400 * d) / 146097 in
  if d <? DayFromYear y0 then y0 - 1
  else if DayFromYear (y0 + 1) <=? d then y0 + 1
  else y0.

Definition YearFromTime (t : Z) : Z := YearFromDay (Day t).

Definition InLeapYear (t : Z) : Z :=
  if DaysInYear (YearFromTime t) =? 366 then 1 else 0.

Definition DayWithinYear (t : Z) : Z := Day t - DayFromYear (YearFromTime t).

(** Month number 0..11, by the table of ECMA-262 (21.4.1.4). *)
Definition MonthFromTime (t : Z) : Z :=
  let d := DayWithinYear t in
  let leap := InLeapYear t in
  if d <? 31 then 0
  else if d <? 59 + leap then 1
  else if d <? 90 + leap then 2
  else if d <? 120 + leap then 3
  else if d <? 151 + leap then 4
  else if d <? 181 + leap then 5
  else if d <? 212 + leap then 6
  else if d <? 243 + leap then 7
  else if d <? 273 + leap then 8
  else if d <? 304 + leap then 9
  else if d <? 334 + leap then 10
  else 11.

(** Days before the first of month [m] (1..12) in a year with [leap] extra
    days in February. *)
Definition daysBeforeMonth (m leap : Z) : Z :=
  match m with
  | 1 => 0
  | 2 => 31
  | 3 => 59 + leap
  | 4 => 90 + leap
  | 5 => 120 + leap
  | 6 => 151 + leap
  | 7 => 181 + leap
  | 8 => 212 + leap
  | 9 => 243 + leap
  | 10 => 273 + leap
  | 11 => 304 + leap
  | _ => 334 + leap
  end.

Definition daysInMonth (m leap : Z) : Z :=
  match m with
  | 2 => 28 + leap
  | 4 | 6 | 9 | 11 => 30
  | _ => 31
  end.

(** [MakeDate(MakeDay(y, m - 1, d), 0)] for a calendar date. *)
Definition timeOfCivil (y m d : Z) : Z :=
  let leap := if DaysInYear y =? 366 then 1 else 0 in
  (DayFromYear y + daysBeforeMonth m leap + (d - 1)) * msPerDay.

Definition digit (c : ascii) : option Z :=
  let n := Z.of_N (N_of_ascii c) in
  if (48 <=? n) && (n <=? 57) then Some (n - 48) else None.

(** The date-only form [YYYY-MM-DD] of the Date Time String Format, which
    every engine reads as midnight UTC.  Anything else, a day beyond the
    end of its month included, is left to the engine. *)
Definition parseDateOnly (s : string) : option Z :=
  match list_ascii_of_string s with
  | [y1; y2; y3; y4; h1; m1; m2; h2; d1; d2] =>
      match digit y1, digit y2, digit y3, digit y4,
            digit m1, digit m2, digit d1, digit d2 with
      | Some a, Some b, Some c, Some e, Some f, Some g, Some h, Some i =>
          let y := 1000 * a + 100 * b + 10 * c + e in
          let m := 10 * f + g in
          let d := 10 * h + i in
          let leap := if DaysInYear y =? 366 then 1 else 0 in
          if (Ascii.eqb h1 "-") && (Ascii.eqb h2 "-")
             && (1 <=? m) && (m <=? 12)
             && (1 <=? d) && (d <=? daysInMonth m leap)
          then Some (timeOfCivil y m d)
          else None
      | _, _, _, _, _, _, _, _ => None
      end
  | _ => None
  end.

(** What the standard leaves to the engine and the machine. *)
Record Runtime : Type := {
  (** [Date.parse] on strings outside the date-only form *)
  parseFallback : string -> Date;
  (** offset of local time from UTC, in milliseconds, at a UTC instant *)
  LocalTZA : Z -> Z;
  (** [toLocaleDateString()] of a valid time value in the default locale *)
  localeDateString : Z -> string;
  (** source text of the built-in function stored in [Object.prototype]
      under a given property name *)
  nativeFunctionString : string -> string
}.

Section RuntimeModel.

Variable rt : Runtime.

(** [new Date(s)] for a string [s]. *)
Definition newDate (s : string) : Date :=
  match parseDateOnly s with
  | Some t => TimeValue t
  | None => parseFallback rt s
  end.

Definition LocalTime (t : Z) : Z := t + LocalTZA rt t.

Definition getFullYear (d : Date) : number :=
  match d with
  | TimeValue t => Int (YearFromTime (LocalTime t))
  | InvalidDate => NaN
  end.

Definition getMonth (d : Date) : number :=
  match d with
  | TimeValue t => Int (MonthFromTime (LocalTime t))
  | InvalidDate => NaN
  end.

Definition toLocaleDateString (d : Date) : string :=
  match d with
  | TimeValue t => localeDateString rt t
  | InvalidDate => "Invalid Date"
  end.

End RuntimeModel.

(** [a >= b] and [a <= b] on two [Date] objects: both are converted to
    their time values, and a comparison with [NaN] is false. *)
Definition date_ge (a b : Date) : bool :=
  match a, b with
  | TimeValue x, TimeValue y => y <=? x
  | _, _ => false
  end.

Definition date_le (a b : Date) : bool :=
  match a, b with
  | TimeValue x, TimeValue y => x <=? y
  | _, _ => false
  end.

(** [a || b] on strings: the empty string is falsy. *)
Definition str_or (a b : string) : string :=
  if String.eqb a "" then b else a.

(** The same on a field that may be missing ([null] or [undefined]). *)
Definition opt_or (a : option string) (b : string) : string :=
  match a with
  | Some s => str_or s b
  | None => b
  end.

(** ** Ordinary objects used as dictionaries

    The own properties of an object created by [{}], in creation order.
    Its prototype is [Object.prototype]. *)

Definition props (V : Type) : Type := list (string * V).

Fixpoint own {V : Type} (o : props V) (k : string) : option V :=
  match o with
  | [] => None
  | (k', v) :: r => if String.eqb k' k then Some v else own r k
  end.

(** Writing an own data property: an existing one keeps its place, a new
    one is created last. *)
Fixpoint define {V : Type} (o : props V) (k : string) (v : V) : props V :=
  match o with
  | [] => [(k, v)]
  | (k', v') :: r =>
      if String.eqb k' k then (k', v) :: r else (k', v') :: define r k v
  end.

(** Property names of [Object.prototype] (ECMA-262 20.1.3 and B.2.2). *)
Definition ObjectPrototypeNames : list string :=
  [ "constructor"; "hasOwnProperty"; "isPrototypeOf"; "propertyIsEnumerable";
    "toLocaleString"; "toString"; "valueOf"; "__proto__";
    "__defineGetter__"; "__defineSetter__";
    "__lookupGetter__"; "__lookupSetter__" ].

Definition inherited (k : string) : bool :=
  existsb (String.eqb k) ObjectPrototypeNames.

Fixpoint digitsValue (acc : Z) (cs : list ascii) : option Z :=
  match cs with
  | [] => Some acc
  | c :: r =>
      match digit c with
      | Some d => digitsValue (10 * acc + d) r
      | None => None
      end
  end.

(** An array index is a canonical numeric string with value at most
    2^32 - 2. *)
Definition arrayIndex (k : string) : option Z :=
  match list_ascii_of_string k with
  | [] => None
  | cs =>
      match digitsValue 0 cs with
      | Some n =>
          if (n <? 4294967295) && String.eqb (ToString (Int n)) k
          then Some n else None
      | None => None
      end
  end.

Fixpoint insertIndex {V : Type} (e : Z * (string * V))
    (l : list (Z * (string * V))) : list (Z * (string * V)) :=
  match l with
  | [] => [e]
  | e' :: r => if fst e <=? fst e' then e :: l else e' :: insertIndex e r
  end.

Definition indexEntries {V : Type} (o : props V) : list (Z * (string * V)) :=
  fold_right
    (fun kv acc =>
       match arrayIndex (fst kv) with
       | Some n => insertIndex (n, kv) acc
       | None => acc
       end) [] o.

Definition namedEntries {V : Type} (o : props V) : props V :=
  filter (fun kv => match arrayIndex (fst kv) with
                    | Some _ => false
                    | None => true
                    end) o.

(** [OrdinaryOwnPropertyKeys]: array indices in ascending numeric order,
    then the other string keys in creation order. *)
Definition ownEntries {V : Type} (o : props V) : props V :=
  (map snd (indexEntries o) ++ namedEntries o)%list.

Definition Object_keys {V : Type} (o : props V) : list string :=
  map fst (ownEntries o).

Definition Object_values {V : Type} (o : props V) : list V :=
  map snd (ownEntries o).

(** ** [Array.prototype.sort()] without a comparator, on strings

    Elements are ordered by their code units; the result is the one sorted
    arrangement whatever algorithm the engine runs. *)

Definition str_leb (a b : string) : bool :=
  match String_as_OT.compare a b with
  | Gt => false
  | _ => true
  end.

Fixpoint insertSorted (k : string) (l : list string) : list string :=
  match l with
  | [] => [k]
  | k' :: r => if str_leb k k' then k :: l else k' :: insertSorted k r
  end.

Definition Array_sort (l : list string) : list string :=
  fold_right insertSorted [] l.

(* ===================================================================== *)
(** * The page *)
(* ===================================================================== *)

Record User : Type := {
  user_id : Z;
  name : string;
  role : string;
  created_at : string;
  avatar : string
}.

(** [sender_name] is declared a string, yet the page guards every use of
    it with [|| "Unknown"]: [None] stands for a missing ([null] or
    [undefined]) name. *)
Record Announcement : Type := {
  announcement_id : Z;
  message : string;
  sender_id : Z;
  sent_at : string;
  sender_name : option string
}.

Inductive ReportType : Type :=
| users_report          (* "users" *)
| announcements_report. (* "announcements" *)

(** The [useState] cells of the component. *)
Record State : Type := {
  reportType : option ReportType;
  startDate : option Date;
  endDate : option Date;
  users : list User;
  announcements : list Announcement
}.

Record MonthBucket : Type := {
  students : Z;
  lecturers : Z
}.

(** An entry of [senderData]: a count, or the string that [+ 1] yields
    once an inherited property has been read in place of a count. *)
Inductive value : Type :=
| VNum (n : Z)
| VStr (s : string).

Inductive Colour : Type :=
| Fixed (c : string)
| RandomPerLabel (n : nat).
  (* [n] colours drawn from [Math.random], anew at every call: the token
     records how many, not which, and two equal tokens do not stand for
     equal colours *)

Record Dataset (A : Type) : Type := {
  label : string;
  data : list A;
  borderColor : option string;
  backgroundColor : Colour
}.
Arguments label {A} _.
Arguments data {A} _.
Arguments borderColor {A} _.
Arguments backgroundColor {A} _.

Record ChartData (A : Type) : Type := {
  labels : list string;
  datasets : list (Dataset A)
}.
Arguments labels {A} _.
Arguments datasets {A} _.

Record Report (R A : Type) : Type := {
  tableData : list R;
  chartData : ChartData A
}.
Arguments tableData {R A} _.
Arguments chartData {R A} _.

(** Calls made on the [jsPDF] document, in order. *)
Inductive PdfOp : Type :=
| Text (s : string) (x y : Z)
| AutoTable (head body : list (list string)) (startY : Z)
| Save (filename : string).

Definition countRole (r : string) (b : MonthBucket) : MonthBucket :=
  if String.eqb r "student" then
    {| students := students b + 1; lecturers := lecturers b |}
  else if String.eqb r "lecturer" then
    {| students := students b; lecturers := lecturers b + 1 |}
  else b.

Section Page.

Variable rt : Runtime.

(** [d >= startDate && d <= endDate] *)
Definition inRange (s e d : Date) : bool := date_ge d s && date_le d e.

(** Lines 105-111: [if (!startDate || !endDate) return data;], then
    [data.filter].  A [Date] object is truthy even when invalid, so the
    guard only sees [null]. *)
Definition filterUsersByDateRange (st : State) (data : list User)
  : list User :=
  match startDate st, endDate st with
  | Some s, Some e =>
      filter (fun user => inRange s e (newDate rt (created_at user))) data
  | _, _ => data
  end.

(** Lines 113-119. *)
Definition filterAnnouncementsByDateRange (st : State)
    (data : list Announcement) : list Announcement :=
  match startDate st, endDate st with
  | Some s, Some e =>
      filter (fun announcement =>
                inRange s e (newDate rt (sent_at announcement))) data
  | _, _ => data
  end.

(** Line 130: [`${date.getFullYear()}-${date.getMonth() + 1}`] *)
Definition monthKeyOf (user : User) : string :=
  let date := newDate rt (created_at user) in
  ToString (getFullYear rt date) ++ "-"
    ++ ToString (number_add (getMonth rt date) 1).

(** One turn of the [forEach] of [getUserRegistrationData].  Under a key
    that [Object.prototype] answers, the test [!monthlyData[monthKey]]
    fails and the increments land on the inherited object: the own
    properties stay as they are. *)
Definition registerUser (monthlyData : props MonthBucket) (user : User)
  : props MonthBucket :=
  let monthKey := monthKeyOf user in
  match own monthlyData monthKey with
  | Some b => define monthlyData monthKey (countRole (role user) b)
  | None =>
      if inherited monthKey then monthlyData
      else define monthlyData monthKey
             (countRole (role user) {| students := 0; lecturers := 0 |})
  end.

Definition monthlyDataOf (filteredUsers : list User) : props MonthBucket :=
  fold_left registerUser filteredUsers [].

(** [monthlyData[label].students] for a label taken from the keys. *)
Definition bucketAt (monthlyData : props MonthBucket) (k : string)
  : MonthBucket :=
  match own monthlyData k with
  | Some b => b
  | None => {| students := 0; lecturers := 0 |}
  end.

(** Lines 122-165. *)
Definition getUserRegistrationData (st : State) : Report User Z :=
  let filteredUsers := filterUsersByDateRange st (users st) in
  let monthlyData := monthlyDataOf filteredUsers in
  let labels := Array_sort (Object_keys monthlyData) in
  let studentData := map (fun l => students (bucketAt monthlyData l)) labels in
  let lecturerData :=
    map (fun l => lecturers (bucketAt monthlyData l)) labels in
  {| tableData := filteredUsers;
     chartData :=
       {| labels := labels;
          datasets :=
            [ {| label := "Students";
                 data := studentData;
                 borderColor := Some "rgb(255, 99, 132)";
                 backgroundColor := Fixed "rgba(255, 99, 132, 0.5)" |};
              {| label := "Lecturers";
                 data := lecturerData;
                 borderColor := Some "rgb(53, 162, 235)";
                 backgroundColor := Fixed "rgba(53, 162, 235, 0.5)" |} ] |} |}.

(** What [String(v)] gives for the value [Object.prototype] holds under
    an inherited name: the object itself under [__proto__], a built-in
    function otherwise. *)
Definition inheritedText (k : string) : string :=
  if String.eqb k "__proto__" then "[object Object]"
  else nativeFunctionString rt k.

(** [(senderData[sender] || 0) + 1] *)
Definition nextCount (senderData : props value) (sender : string) : value :=
  match own senderData sender with
  | Some (VNum n) => VNum ((if n =? 0 then 0 else n) + 1)
  | Some (VStr s) => if String.eqb s "" then VNum 1 else VStr (s ++ "1")
  | None =>
      if inherited sender then VStr (inheritedText sender ++ "1")
      else VNum 1
  end.

(** [senderData[sender] = v]: the [__proto__] setter ignores a value
    that is not an object, every other key becomes or stays an own
    property. *)
Definition assign (senderData : props value) (sender : string) (v : value)
  : props value :=
  match own senderData sender with
  | Some _ => define senderData sender v
  | None =>
      if String.eqb sender "__proto__" then senderData
      else define senderData sender v
  end.

Definition senderOf (announcement : Announcement) : string :=
  opt_or (sender_name announcement) "Unknown".

Definition recordSender (senderData : props value)
    (announcement : Announcement) : props value :=
  let sender := senderOf announcement in
  assign senderData sender (nextCount senderData sender).

Definition senderDataOf (filteredAnnouncements : list Announcement)
  : props value :=
  fold_left recordSender filteredAnnouncements [].

(** Lines 168-198. *)
Definition getAnnouncementActivityData (st : State)
  : Report Announcement value :=
  let filteredAnnouncements :=
    filterAnnouncementsByDateRange st (announcements st) in
  let senderData := senderDataOf filteredAnnouncements in
  let labels := Object_keys senderData in
  let data := Object_values senderData in
  {| tableData := filteredAnnouncements;
     chartData :=
       {| labels := labels;
          datasets :=
            [ {| label := "Announcements";
                 data := data;
                 borderColor := None;
                 backgroundColor := RandomPerLabel (List.length labels) |} ]
       |} |}.

(** [s ? new Date(s).toLocaleDateString() : "N/A"] *)
Definition dateCell (s : string) : string :=
  if String.eqb s "" then "N/A" else toLocaleDateString rt (newDate rt s).

Definition userRow (user : User) : list string :=
  [name user; role user; dateCell (created_at user)].

Definition announcementRow (announcement : Announcement) : list string :=
  [message announcement;
   opt_or (sender_name announcement) "Unknown";
   dateCell (sent_at announcement)].

(** [d?.toLocaleDateString() || "N/A"] *)
Definition boundText (d : option Date) : string :=
  match d with
  | Some x => str_or (toLocaleDateString rt x) "N/A"
  | None => "N/A"
  end.

(** Lines 201-250: the calls made on the document, [doc.save] last and
    under no condition. *)
Definition downloadPDF (st : State) : list PdfOp :=
  ([ Text "Smart Campus Report" 20 20;
    Text ("Report Type: " ++
          match reportType st with
          | Some users_report => "User Registration Trends"
          | _ => "Announcement Activity"
          end) 20 30;
    Text ("Date Range: " ++ boundText (startDate st) ++ " - "
            ++ boundText (endDate st)) 20 40 ]
  ++ match reportType st with
     | Some users_report =>
         [ AutoTable [["Name"; "Role"; "Registered At"]]
             (map userRow (tableData (getUserRegistrationData st))) 50 ]
     | Some announcements_report =>
         [ AutoTable [["Message"; "Sender"; "Sent At"]]
             (map announcementRow
                (tableData (getAnnouncementActivityData st))) 50 ]
     | None => []
     end
  ++ [ Save "report.pdf" ])%list.

(** The report shown on the page: chart data and the cells of the
    details table, or nothing. *)
Inductive ReportView : Type :=
| UserView (chart : ChartData Z) (rows : list (list string))
| AnnouncementView (chart : ChartData value) (rows : list (list string)).

Definition renderReport (st : State) : option ReportView :=
  match reportType st with
  | Some users_report =>
      let r := getUserRegistrationData st in
      Some (UserView (chartData r) (map userRow (tableData r)))
  | Some announcements_report =>
      let r := getAnnouncementActivityData st in
      Some (AnnouncementView (chartData r)
              (map announcementRow (tableData r)))
  | None => None
  end.

(** What the component returns, as far as the export is concerned: the
    "Download PDF" button exists only under [reportType &&], and its
    click handler is [downloadPDF]. *)
Record Rendered : Type := {
  downloadButton : option (list PdfOp);
  dateRangeSelection : bool;
  report : option ReportView
}.

Definition render (st : State) : Rendered :=
  {| downloadButton :=
       match reportType st with
       | Some _ => Some (downloadPDF st)
       | None => None
       end;
     dateRangeSelection :=
       match reportType st with Some _ => true | None => false end;
     report :=
       match reportType st with
       | Some _ => renderReport st
       | None => None
       end |}.

End Page.

(* ===================================================================== *)
(** * Two concrete runtimes and the sample data of the scenarios *)
(* ===================================================================== *)

Definition DateFromTime (t : Z) : Z :=
  DayWithinYear t - daysBeforeMonth (MonthFromTime t + 1) (InLeapYear t) + 1.

(** Month/day/year, as the [en-US] locale writes dates. *)
Definition usDateString (tza t : Z) : string :=
  let l := t + tza in
  ToString (Int (MonthFromTime l + 1)) ++ "/" ++ ToString (Int (DateFromTime l))
    ++ "/" ++ ToString (Int (YearFromTime l)).

Definition builtinSource (k : string) : string :=
  "function " ++ (if String.eqb k "constructor" then "Object" else k)
    ++ "() { [native code] }".

(** An engine set to UTC that reads nothing beyond the date-only form. *)
Definition utcRuntime : Runtime :=
  {| parseFallback := fun _ => InvalidDate;
     LocalTZA := fun _ => 0;
     localeDateString := usDateString 0;
     nativeFunctionString := builtinSource |}.

(** The same engine five hours west of Greenwich. *)
Definition westRuntime : Runtime :=
  {| parseFallback := fun _ => InvalidDate;
     LocalTZA := fun _ => -18000000;
     localeDateString := usDateString (-18000000);
     nativeFunctionString := builtinSource |}.

Definition mkUser (i : Z) (r c : string) : User :=
  {| user_id := i; name := "user"; role := r; created_at := c; avatar := "" |}.

Definition mkAnnouncement (i : Z) (s : option string) (c : string)
  : Announcement :=
  {| announcement_id := i; message := "hello"; sender_id := i;
     sent_at := c; sender_name := s |}.

Definition scenarioA : list User :=
  [ mkUser 1 "student" "2024-01-15";
    mkUser 2 "lecturer" "2024-01-20";
    mkUser 3 "student" "2024-02-01" ].

Definition scenarioC : list Announcement :=
  [ mkAnnouncement 1 (Some "Alice") "2024-01-15";
    mkAnnouncement 2 (Some "Bob") "2024-01-16";
    mkAnnouncement 3 (Some "Alice") "2024-01-17" ].

Definition userState (s e : option Date) (us : list User) : State :=
  {| reportType := Some users_report; startDate := s; endDate := e;
     users := us; announcements := [] |}.

Definition announcementState (s e : option Date) (l : list Announcement)
  : State :=
  {| reportType := Some announcements_report; startDate := s; endDate := e;
     users := []; announcements := l |}.

(** The range filter as the specification words it: each bound is tested
    on its own, an unset bound letting every record through. *)
Definition keepAsStated (s e : option Date) (d : Date) : bool :=
  match s with Some a => date_ge d a | None => true end
  && match e with Some b => date_le d b | None => true end.

(** [a > b] on two [Date] objects. *)
Definition date_gt (a b : Date) : bool :=
  match a, b with
  | TimeValue x, TimeValue y => y <? x
  | _, _ => false
  end.

Definition idleState (s e : option Date) (us : list User)
    (l : list Announcement) : State :=
  {| reportType := None; startDate := s; endDate := e;
     users := us; announcements := l |}.

(** ** Vocabulary of the statements *)

Definition sumZ (l : list Z) : Z := fold_right Z.add 0 l.

(** The order of [Array_sort], strict. *)
Definition str_lt (a b : string) : Prop := String_as_OT.compare a b = Lt.

(** Number of records of a list with a given role. *)
Definition withRole (r : string) (l : list User) : Z :=
  Z.of_nat (List.length (filter (fun u => String.eqb (role u) r) l)).

(** Total of a list of [senderData] entries, when all of them are counts. *)
Fixpoint sumCounts (vs : list value) : option Z :=
  match vs with
  | [] => Some 0
  | VNum n :: r =>
      match sumCounts r with
      | Some m => Some (n + m)
      | None => None
      end
  | VStr _ :: _ => None
  end.

(** Distinct elements of a list, each at the place of its first
    occurrence. *)
Definition addKey (acc : list string) (k : string) : list string :=
  if existsb (String.eqb k) acc then acc else (acc ++ [k])%list.

Definition firstSeen (l : list string) : list string :=
  fold_left addKey l [].

(** Occurrences of a name in a list of names. *)
Definition occurrences (l : list string) (k : string) : Z :=
  Z.of_nat (count_occ string_dec l k).

(** The count an entry of [senderData] stands for. *)
Definition valueNum (v : value) : Z :=
  match v with
  | VNum n => n
  | VStr _ => 0
  end.

Definition isCount (v : value) : Prop :=
  match v with
  | VNum _ => True
  | VStr _ => False
  end.

(** What [own] answers once the names of [seen] have been counted. *)
Definition counted (seen : list string) (k : string) : option value :=
  if occurrences seen k =? 0 then None else Some (VNum (occurrences seen k)).

(** The fetched users without those whose timestamp does not parse. *)
Definition validTimestamp (rt : Runtime) (u : User) : bool :=
  match newDate rt (created_at u) with
  | TimeValue _ => true
  | InvalidDate => false
  end.

Definition setUsers (st : State) (us : list User) : State :=
  {| reportType := reportType st; startDate := startDate st;
     endDate := endDate st; users := us; announcements := announcements st |}.

(** Array indices among the keys, and the number they stand for. *)
Definition isIndex (k : string) : bool :=
  match arrayIndex k with
  | Some _ => true
  | None => false
  end.

Definition indexValue (k : string) : Z :=
  match arrayIndex k with
  | Some n => n
  | None => 0
  end.

(* ===================================================================== *)
(** * State changes of the page *)
(* ===================================================================== *)

Definition setAnnouncements (st : State) (l : list Announcement) : State :=
  {| reportType := reportType st; startDate := startDate st;
     endDate := endDate st; users := users st; announcements := l |}.

Definition setReportType (st : State) (r : option ReportType) : State :=
  {| reportType := r; startDate := startDate st; endDate := endDate st;
     users := users st; announcements := announcements st |}.

Definition setStartDate (st : State) (d : option Date) : State :=
  {| reportType := reportType st; startDate := d; endDate := endDate st;
     users := users st; announcements := announcements st |}.

Definition setEndDate (st : State) (d : option Date) : State :=
  {| reportType := reportType st; startDate := startDate st; endDate := d;
     users := users st; announcements := announcements st |}.

(** What lies outside the page when data is fetched: the token kept in
    [localStorage] and the replies of the two endpoints, [None] standing
    for a request that fails. *)
Record Network : Type := {
  token : option string;
  usersReply : option (list User);
  announcementsReply : option (list Announcement)
}.

Definition authAlert : string :=
  "Authentication token not found. Please log in again.".

Definition fetchAlert : string := "Failed to fetch data for the report.".

(** How a run of [fetchData] ends. *)
Inductive Outcome : Type :=
| GotUsers (l : list User)                  (* [setUsers(response.data.users)] *)
| GotAnnouncements (l : list Announcement)  (* [setAnnouncements(response.data)] *)
| Alerted (msg : string)                    (* [alert(msg)] *)
| Nothing.

(** Lines 68-97: [fetchData], for the report kind its closure holds. *)
Definition fetchData (net : Network) (kind : option ReportType) : Outcome :=
  match token net with
  | None => Alerted authAlert
  | Some t =>
      if String.eqb t "" then Alerted authAlert
      else
        match kind with
        | Some users_report =>
            match usersReply net with
            | Some l => GotUsers l
            | None => Alerted fetchAlert
            end
        | Some announcements_report =>
            match announcementsReply net with
            | Some l => GotAnnouncements l
            | None => Alerted fetchAlert
            end
        | None => Nothing
        end
  end.

(** The state setter an outcome calls, on the state of the moment, and the
    alerts shown. *)
Definition settle (o : Outcome) (st : State) : State * list string :=
  match o with
  | GotUsers l => (setUsers st l, [])
  | GotAnnouncements l => (setAnnouncements st l, [])
  | Alerted msg => (st, [msg])
  | Nothing => (st, [])
  end.

(** Lines 67-102: the effect that runs when [reportType] changes:
    [if (reportType) fetchData();]. *)
Definition reportTypeEffect (net : Network) (st : State) : Outcome :=
  match reportType st with
  | Some _ => fetchData net (reportType st)
  | None => Nothing
  end.

(** What can happen to the page: the three form controls, and a fetch
    started earlier coming to its end. *)
Inductive Event : Type :=
| SelectReport (r : ReportType)   (* the two enabled options of the select *)
| PickStart (d : option Date)
| PickEnd (d : option Date)
| Settled (o : Outcome).

Definition step (st : State) (ev : Event) : State :=
  match ev with
  | SelectReport r => setReportType st (Some r)
  | PickStart d => setStartDate st d
  | PickEnd d => setEndDate st d
  | Settled o => fst (settle o st)
  end.

Definition run (st : State) (evs : list Event) : State :=
  fold_left step evs st.

(** ** More vocabulary *)

Definition window (st : State) (a b : Z) : State :=
  setEndDate (setStartDate st (Some (TimeValue a))) (Some (TimeValue b)).

Definition inMonth (rt : Runtime) (k : string) (u : User) : bool :=
  String.eqb (monthKeyOf rt u) k.

Definition otherRole (u : User) : bool :=
  negb (String.eqb (role u) "student") && negb (String.eqb (role u) "lecturer").

(** A click on the "Download PDF" button of the page as rendered: the
    calls its handler makes on the document.  Where the page shows no
    button there is nothing to click, and nothing happens. *)
Definition exportFromPage (rt : Runtime) (st : State) : list PdfOp :=
  match downloadButton (render rt st) with
  | Some ops => ops
  | None => []
  end.

Definition noSelection (ev : Event) : Prop :=
  match ev with
  | SelectReport _ => False
  | _ => True
  end.

(** Labels and values of a chart, without the colours. *)
Definition seriesOf {A : Type} (c : ChartData A)
  : list string * list (string * list A) :=
  (labels c, map (fun d => (label d, data d)) (datasets c)).

Definition october : User := mkUser 5 "student" "2024-10-05".

(* ===================================================================== *)
(** * The calendar *)
(* ===================================================================== *)

Section Calendar.

Lemma YearFromDay_spec (d : Z) :
  DayFromYear (YearFromDay d) <= d < DayFromYear (YearFromDay d + 1).
Proof.
  unfold YearFromDay.
  destruct (Z.ltb_spec d (DayFromYear (1970 + 400 * d / 146097))) as [H1|H1].
  - replace (1970 + 400 * d / 146097 - 1 + 1)
      with (1970 + 400 * d / 146097) by lia.
    split; [|assumption].
    revert H1. unfold DayFromYear. Z.div_mod_to_equations. lia.
  - destruct (Z.leb_spec (DayFromYear (1970 + 400 * d / 146097 + 1)) d)
      as [H2|H2].
    + split; [assumption|].
      revert H1 H2. unfold DayFromYear. Z.div_mod_to_equations. lia.
    + split; assumption.
Qed.

Lemma DayFromYear_mono (a b : Z) : a <= b -> DayFromYear a <= DayFromYear b.
Proof. unfold DayFromYear. intros H. Z.div_mod_to_equations. lia. Qed.

Lemma YearFromDay_unique (d y : Z) :
  DayFromYear y <= d < DayFromYear (y + 1) -> YearFromDay d = y.
Proof.
  intros Hy. pose proof (YearFromDay_spec d) as Hs.
  destruct (Z.lt_trichotomy (YearFromDay d) y) as [H|[H|H]]; [|assumption|].
  - pose proof (DayFromYear_mono (YearFromDay d + 1) y). lia.
  - pose proof (DayFromYear_mono (y + 1) (YearFromDay d)). lia.
Qed.

Lemma DaysInYear_cases (y : Z) : DaysInYear y = 365 \/ DaysInYear y = 366.
Proof. unfold DaysInYear, DayFromYear. Z.div_mod_to_equations. lia. Qed.

(** A calendar date, turned into a time value, reads back as the same
    year and month. *)
Lemma civil_roundtrip (y m d : Z) :
  1 <= m <= 12 ->
  1 <= d <= daysInMonth m (if DaysInYear y =? 366 then 1 else 0) ->
  Day (timeOfCivil y m d) * msPerDay = timeOfCivil y m d
  /\ YearFromTime (timeOfCivil y m d) = y
  /\ MonthFromTime (timeOfCivil y m d) = m - 1.
Proof.
  intros Hm Hd.
  set (leap := if DaysInYear y =? 366 then 1 else 0) in *.
  assert (Hday : Day (timeOfCivil y m d)
                 = DayFromYear y + daysBeforeMonth m leap + (d - 1)).
  { unfold Day, timeOfCivil. fold leap.
    apply Z.div_mul. unfold msPerDay. lia. }
  assert (Hleap : DaysInYear y = 365 + leap).
  { subst leap. destruct (Z.eqb_spec (DaysInYear y) 366); [lia|].
    destruct (DaysInYear_cases y); lia. }
  assert (Hcases : m = 1 \/ m = 2 \/ m = 3 \/ m = 4 \/ m = 5 \/ m = 6
                   \/ m = 7 \/ m = 8 \/ m = 9 \/ m = 10 \/ m = 11 \/ m = 12)
    by lia.
  assert (Hl : leap = 0 \/ leap = 1)
    by (subst leap; destruct (DaysInYear y =? 366); auto).
  assert (Hyear : YearFromTime (timeOfCivil y m d) = y).
  { unfold YearFromTime. rewrite Hday. apply YearFromDay_unique.
    unfold DaysInYear in Hleap. clearbody leap.
    repeat (destruct Hcases as [->|Hcases];
            [cbv [daysBeforeMonth daysInMonth] in *; lia|]).
    subst m. cbv [daysBeforeMonth daysInMonth] in *. lia. }
  split; [|split; [exact Hyear|]].
  - rewrite Hday. unfold timeOfCivil. fold leap. reflexivity.
  - unfold MonthFromTime, InLeapYear, DayWithinYear.
    rewrite Hyear, Hday. fold leap. clearbody leap.
    replace (DayFromYear y + daysBeforeMonth m leap + (d - 1) - DayFromYear y)
      with (daysBeforeMonth m leap + (d - 1)) by lia.
    repeat (destruct Hcases as [->|Hcases];
            [cbv [daysBeforeMonth daysInMonth] in *;
             repeat match goal with
                    | |- context [?a <? ?b] => destruct (Z.ltb_spec a b)
                    end; lia|]).
    subst m. cbv [daysBeforeMonth daysInMonth] in *.
    repeat match goal with
           | |- context [?a <? ?b] => destruct (Z.ltb_spec a b)
           end; lia.
Qed.

End Calendar.

(* ===================================================================== *)
(** * The range filter *)
(* ===================================================================== *)

Section RangeFilter.

Variable rt : Runtime.

Lemma filter_all_true {A : Type} (f : A -> bool) (l : list A) :
  (forall x, In x l -> f x = true) -> filter f l = l.
Proof.
  induction l as [|x l IH]; intros H; simpl; [reflexivity|].
  rewrite (H x (or_introl eq_refl)).
  f_equal. apply IH. intros y Hy. apply H. now right.
Qed.

Lemma filter_none {A : Type} (f : A -> bool) (l : list A) :
  (forall x, In x l -> f x = false) -> filter f l = [].
Proof.
  induction l as [|x l IH]; intros H; simpl; [reflexivity|].
  rewrite (H x (or_introl eq_refl)).
  apply IH. intros y Hy. apply H. now right.
Qed.

Lemma filter_twice {A : Type} (f : A -> bool) (l : list A) :
  filter f (filter f l) = filter f l.
Proof.
  apply filter_all_true. intros x Hx.
  apply filter_In in Hx. tauto.
Qed.

Lemma inRange_empty (s e d : Date) :
  date_gt s e = true -> inRange s e d = false.
Proof.
  unfold inRange, date_gt, date_ge, date_le.
  destruct s as [a|], e as [b|], d as [t|]; simpl; intros H;
    try discriminate; try reflexivity.
  apply Z.ltb_lt in H.
  destruct (a <=? t) eqn:E1; simpl; [|reflexivity].
  apply Z.leb_le in E1. apply Z.leb_gt. lia.
Qed.

Lemma filterUsers_unset (st : State) (data : list User) :
  startDate st = None \/ endDate st = None ->
  filterUsersByDateRange rt st data = data.
Proof.
  unfold filterUsersByDateRange.
  intros [H|H]; rewrite H; [reflexivity|].
  now destruct (startDate st).
Qed.

Lemma filterAnnouncements_unset (st : State) (data : list Announcement) :
  startDate st = None \/ endDate st = None ->
  filterAnnouncementsByDateRange rt st data = data.
Proof.
  unfold filterAnnouncementsByDateRange.
  intros [H|H]; rewrite H; [reflexivity|].
  now destruct (startDate st).
Qed.

Lemma filterUsers_set (st : State) (s e : Date) (data : list User) :
  startDate st = Some s -> endDate st = Some e ->
  filterUsersByDateRange rt st data
  = filter (fun u => inRange s e (newDate rt (created_at u))) data.
Proof.
  unfold filterUsersByDateRange. now intros -> ->.
Qed.

Lemma filterAnnouncements_set (st : State) (s e : Date)
    (data : list Announcement) :
  startDate st = Some s -> endDate st = Some e ->
  filterAnnouncementsByDateRange rt st data
  = filter (fun a => inRange s e (newDate rt (sent_at a))) data.
Proof.
  unfold filterAnnouncementsByDateRange. now intros -> ->.
Qed.

End RangeFilter.

(** C1, as amended.  The range filter keeps a record if and only if a bound
    of the window is unset, or the record's timestamp is >= start and
    <= end (both bounds inclusive): with one bound only, nothing is
    filtered.  The records kept stay in their order. *)
Theorem C1_range_filter_both_bounds_or_nothing :
  forall (rt : Runtime) (st : State),
    (forall (data : list User) (u : User),
        In u (filterUsersByDateRange rt st data) <->
        In u data /\
        (startDate st = None \/ endDate st = None \/
         keepAsStated (startDate st) (endDate st)
           (newDate rt (created_at u)) = true))
    /\ (forall (data : list Announcement) (a : Announcement),
        In a (filterAnnouncementsByDateRange rt st data) <->
        In a data /\
        (startDate st = None \/ endDate st = None \/
         keepAsStated (startDate st) (endDate st)
           (newDate rt (sent_at a)) = true))
    /\ (forall data : list User,
        exists keep, filterUsersByDateRange rt st data = filter keep data)
    /\ (forall data : list Announcement,
        exists keep,
          filterAnnouncementsByDateRange rt st data = filter keep data).
Proof.
  intros rt st.
  assert (Hor : forall d s e, inRange s e d = keepAsStated (Some s) (Some e) d)
    by reflexivity.
  split; [|split; [|split]].
  - intros data u. unfold filterUsersByDateRange.
    destruct (startDate st), (endDate st); try tauto.
    rewrite filter_In, Hor.
    split; [tauto|]. intros [H1 [H2|[H2|H2]]]; try discriminate. tauto.
  - intros data a. unfold filterAnnouncementsByDateRange.
    destruct (startDate st), (endDate st); try tauto.
    rewrite filter_In, Hor.
    split; [tauto|]. intros [H1 [H2|[H2|H2]]]; try discriminate. tauto.
  - intros data. unfold filterUsersByDateRange.
    destruct (startDate st), (endDate st);
      try (exists (fun _ => true); symmetry; now apply filter_all_true).
    eexists. reflexivity.
  - intros data. unfold filterAnnouncementsByDateRange.
    destruct (startDate st), (endDate st);
      try (exists (fun _ => true); symmetry; now apply filter_all_true).
    eexists. reflexivity.
Qed.

(** Both bounds are inclusive: a record dated exactly at the start, which
    is also the end, is kept. *)
Example bounds_are_inclusive :
  let st := userState (Some (TimeValue 1705276800000))
              (Some (TimeValue 1705276800000)) [] in
  filterUsersByDateRange utcRuntime st scenarioA
  = [mkUser 1 "student" "2024-01-15"].
Proof. reflexivity. Qed.

(** C1 as stated fails: with the start set to 2 January 1970 and no end, a
    record of 1 January 1970 lies before the start, and is kept. *)
Lemma C1_one_bound_does_not_filter :
  let st := userState (Some (TimeValue 86400000)) None [] in
  let u := mkUser 1 "student" "1970-01-01" in
  ~ (In u (filterUsersByDateRange utcRuntime st [u]) <->
     In u [u] /\
     keepAsStated (startDate st) (endDate st)
       (newDate utcRuntime (created_at u)) = true).
Proof.
  intros st u [H _].
  assert (Hin : In u (filterUsersByDateRange utcRuntime st [u]))
    by (simpl; auto).
  apply H in Hin. destruct Hin as [_ Hk].
  vm_compute in Hk. discriminate.
Qed.

(** C7.  When both bounds are present and start > end, the range filter
    returns the empty sequence, on any records. *)
Theorem C7_inverted_window_is_empty :
  forall (rt : Runtime) (st : State) (s e : Date)
         (us : list User) (l : list Announcement),
    startDate st = Some s ->
    endDate st = Some e ->
    date_gt s e = true ->
    filterUsersByDateRange rt st us = []
    /\ filterAnnouncementsByDateRange rt st l = [].
Proof.
  intros rt st s e us l Hs He Hgt. split.
  - rewrite (filterUsers_set rt st s e) by assumption.
    apply filter_none. intros. now apply inRange_empty.
  - rewrite (filterAnnouncements_set rt st s e) by assumption.
    apply filter_none. intros. now apply inRange_empty.
Qed.

Lemma C7_inverted_window_witness :
  filterUsersByDateRange utcRuntime
    (userState (Some (TimeValue 1706745600000)) (Some (TimeValue 0)) [])
    scenarioA = []
  /\ filterAnnouncementsByDateRange utcRuntime
       (userState (Some (TimeValue 1706745600000)) (Some (TimeValue 0)) [])
       scenarioC = [].
Proof.
  apply (C7_inverted_window_is_empty utcRuntime _
           (TimeValue 1706745600000) (TimeValue 0));
    reflexivity.
Defined.

(** C8.  The range filter is idempotent: filtering its own output with the
    same window gives that output back. *)
Theorem C8_range_filter_idempotent :
  forall (rt : Runtime) (st : State) (us : list User) (l : list Announcement),
    filterUsersByDateRange rt st (filterUsersByDateRange rt st us)
    = filterUsersByDateRange rt st us
    /\ filterAnnouncementsByDateRange rt st
         (filterAnnouncementsByDateRange rt st l)
       = filterAnnouncementsByDateRange rt st l.
Proof.
  intros rt st us l.
  unfold filterUsersByDateRange, filterAnnouncementsByDateRange.
  destruct (startDate st), (endDate st); split;
    reflexivity || apply filter_twice.
Qed.

(** C9.  A record whose timestamp string does not parse to a valid date is
    excluded by the range filter whenever both bounds are present (both
    comparisons fail on an invalid date), and passes, like every other
    record, when a bound is absent. *)
Theorem C9_invalid_timestamp_and_window :
  forall (rt : Runtime) (st : State),
    (forall (u : User) (us : list User),
        newDate rt (created_at u) = InvalidDate ->
        (forall s e, startDate st = Some s -> endDate st = Some e ->
                     ~ In u (filterUsersByDateRange rt st us))
        /\ (startDate st = None \/ endDate st = None ->
            filterUsersByDateRange rt st us = us))
    /\ (forall (a : Announcement) (l : list Announcement),
        newDate rt (sent_at a) = InvalidDate ->
        (forall s e, startDate st = Some s -> endDate st = Some e ->
                     ~ In a (filterAnnouncementsByDateRange rt st l))
        /\ (startDate st = None \/ endDate st = None ->
            filterAnnouncementsByDateRange rt st l = l)).
Proof.
  intros rt st. split.
  - intros u us Hu. split.
    + intros s e Hs He H.
      rewrite (filterUsers_set rt st s e) in H by assumption.
      apply filter_In in H. destruct H as [_ H].
      rewrite Hu in H. discriminate.
    + now apply filterUsers_unset.
  - intros a l Ha. split.
    + intros s e Hs He H.
      rewrite (filterAnnouncements_set rt st s e) in H by assumption.
      apply filter_In in H. destruct H as [_ H].
      rewrite Ha in H. discriminate.
    + now apply filterAnnouncements_unset.
Qed.

Lemma C9_invalid_timestamp_witness :
  let u := mkUser 4 "student" "not a date" in
  let a := mkAnnouncement 4 (Some "Alice") "not a date" in
  let both := userState (Some (TimeValue 0)) (Some (TimeValue 1706745600000)) [] in
  let open := userState (Some (TimeValue 0)) None [] in
  (~ In u (filterUsersByDateRange utcRuntime both (u :: scenarioA))
   /\ ~ In a (filterAnnouncementsByDateRange utcRuntime both (a :: scenarioC)))
  /\ (filterUsersByDateRange utcRuntime open (u :: scenarioA) = u :: scenarioA
      /\ filterAnnouncementsByDateRange utcRuntime open (a :: scenarioC)
         = a :: scenarioC).
Proof.
  intros u a both open. split; split.
  - exact (proj1 (proj1 (C9_invalid_timestamp_and_window utcRuntime both)
                    u (u :: scenarioA) eq_refl)
             (TimeValue 0) (TimeValue 1706745600000) eq_refl eq_refl).
  - exact (proj1 (proj2 (C9_invalid_timestamp_and_window utcRuntime both)
                    a (a :: scenarioC) eq_refl)
             (TimeValue 0) (TimeValue 1706745600000) eq_refl eq_refl).
  - exact (proj2 (proj1 (C9_invalid_timestamp_and_window utcRuntime open)
                    u (u :: scenarioA) eq_refl)
             (or_intror eq_refl)).
  - exact (proj2 (proj2 (C9_invalid_timestamp_and_window utcRuntime open)
                    a (a :: scenarioC) eq_refl)
             (or_intror eq_refl)).
Defined.

(* ===================================================================== *)
(** * Export *)
(* ===================================================================== *)

Lemma run_without_selection (st : State) (evs : list Event) :
  Forall noSelection evs -> reportType (run st evs) = reportType st.
Proof.
  unfold run. intros H. revert st.
  induction H as [|ev evs Hev Hevs IH]; intros st; [reflexivity|].
  cbn [fold_left]. rewrite IH.
  destruct ev as [r|d|d|[l|l|m|]]; try reflexivity. destruct Hev.
Qed.

(** C2.  For every date window, while the report kind is unset the export
    produces no document at all: the page shows no "Download PDF" button
    (its handler [downloadPDF] is attached nowhere else), so the export
    is a no-op, with no call on any document and no alert; and this stays
    so under date picks and fetch completions, until a report is
    selected. *)
Theorem C2_idle_page_exports_nothing :
  forall (rt : Runtime) (s e : option Date) (us : list User)
         (l : list Announcement) (evs : list Event),
    Forall noSelection evs ->
    let st := run (idleState s e us l) evs in
    reportType st = None
    /\ downloadButton (render rt st) = None
    /\ exportFromPage rt st = []
    /\ (forall f, ~ In (Save f) (exportFromPage rt st)).
Proof.
  intros rt s e us l evs Hevs st.
  assert (Hidle : reportType st = None)
    by (subst st; now rewrite run_without_selection).
  assert (Hbutton : downloadButton (render rt st) = None)
    by (unfold render; cbn [downloadButton]; now rewrite Hidle).
  assert (Hexport : exportFromPage rt st = [])
    by (unfold exportFromPage; now rewrite Hbutton).
  repeat split; try assumption.
  intros f. rewrite Hexport. intros [].
Qed.

Lemma C2_idle_page_exports_nothing_witness :
  let st := run (idleState (Some (TimeValue 0)) None scenarioA scenarioC)
              [PickEnd (Some (TimeValue 1706745600000));
               Settled (GotUsers scenarioA); PickStart None] in
  downloadButton (render utcRuntime st) = None
  /\ exportFromPage utcRuntime st = [].
Proof.
  intros st.
  assert (H : Forall noSelection
                [PickEnd (Some (TimeValue 1706745600000));
                 Settled (GotUsers scenarioA); PickStart None])
    by (repeat constructor).
  destruct (C2_idle_page_exports_nothing utcRuntime (Some (TimeValue 0)) None
              scenarioA scenarioC _ H) as (_ & H2 & H3 & _).
  split; [exact H2 | exact H3].
Defined.

(** Once a report is selected the same click does produce a document. *)
Example export_after_selection :
  In (Save "report.pdf")
     (exportFromPage utcRuntime
        (run (idleState None None scenarioA scenarioC)
           [SelectReport users_report])).
Proof. simpl. auto 10. Qed.

(** The table of the exported document and the table of the page show the
    same rows: one per filtered record, through [userRow]. *)
Lemma exported_user_rows (rt : Runtime) (st : State) :
  reportType st = Some users_report ->
  In (AutoTable [["Name"; "Role"; "Registered At"]]
        (map (userRow rt) (tableData (getUserRegistrationData rt st))) 50)
     (downloadPDF rt st)
  /\ renderReport rt st
     = Some (UserView (chartData (getUserRegistrationData rt st))
               (map (userRow rt) (tableData (getUserRegistrationData rt st)))).
Proof.
  intros H. unfold downloadPDF, renderReport. rewrite H.
  split; [|reflexivity].
  apply in_or_app. right. apply in_or_app. left. now left.
Qed.

(* ===================================================================== *)
(** * Shape of the chart series *)
(* ===================================================================== *)

(** C10.  The registration chart always has exactly two datasets, labelled
    "Students" then "Lecturers", and the activity chart exactly one,
    labelled "Announcements"; when no record survives the filter the
    labels and every value list are empty. *)
Theorem C10_dataset_shape :
  forall (rt : Runtime) (st : State),
    map label (datasets (chartData (getUserRegistrationData rt st)))
    = ["Students"; "Lecturers"]
    /\ map label (datasets (chartData (getAnnouncementActivityData rt st)))
       = ["Announcements"]
    /\ (filterUsersByDateRange rt st (users st) = [] ->
        labels (chartData (getUserRegistrationData rt st)) = []
        /\ map data (datasets (chartData (getUserRegistrationData rt st)))
           = [[]; []])
    /\ (filterAnnouncementsByDateRange rt st (announcements st) = [] ->
        labels (chartData (getAnnouncementActivityData rt st)) = []
        /\ map data (datasets (chartData (getAnnouncementActivityData rt st)))
           = [[]]).
Proof.
  intros rt st. repeat split.
  - unfold getUserRegistrationData. rewrite H. reflexivity.
  - unfold getUserRegistrationData. rewrite H. reflexivity.
  - unfold getAnnouncementActivityData. rewrite H. reflexivity.
  - unfold getAnnouncementActivityData. rewrite H. reflexivity.
Qed.

Lemma C10_dataset_shape_witness :
  let st := {| reportType := Some users_report;
               startDate := Some (TimeValue 1706745600000);
               endDate := Some (TimeValue 0);
               users := scenarioA; announcements := scenarioC |} in
  map label (datasets (chartData (getUserRegistrationData utcRuntime st)))
  = ["Students"; "Lecturers"]
  /\ map label (datasets (chartData (getAnnouncementActivityData utcRuntime st)))
     = ["Announcements"]
  /\ (labels (chartData (getUserRegistrationData utcRuntime st)) = []
      /\ map data (datasets (chartData (getUserRegistrationData utcRuntime st)))
         = [[]; []])
  /\ (labels (chartData (getAnnouncementActivityData utcRuntime st)) = []
      /\ map data
           (datasets (chartData (getAnnouncementActivityData utcRuntime st)))
         = [[]]).
Proof.
  intros st.
  destruct (C10_dataset_shape utcRuntime st) as (H1 & H2 & H3 & H4).
  split; [exact H1 | split; [exact H2 | split]].
  - apply H3. reflexivity.
  - apply H4. reflexivity.
Defined.

(* ===================================================================== *)
(** * Objects as dictionaries *)
(* ===================================================================== *)

Section Objects.

Context {V : Type}.
Implicit Types (o : props V) (k : string) (v : V).

Lemma own_define_same o k v : own (define o k v) k = Some v.
Proof.
  induction o as [|[k' v'] o IH]; simpl.
  - now rewrite String.eqb_refl.
  - destruct (String.eqb k' k) eqn:E; simpl; rewrite E; auto.
Qed.

Lemma own_define_other o k k' v :
  k' <> k -> own (define o k v) k' = own o k'.
Proof.
  intros Hne. induction o as [|[k0 v0] o IH]; simpl.
  - apply String.eqb_neq in Hne. rewrite String.eqb_sym. now rewrite Hne.
  - destruct (String.eqb_spec k0 k) as [->|Hk]; simpl.
    + destruct (String.eqb_spec k k'); [congruence | reflexivity].
    + now rewrite IH.
Qed.

Lemma own_Some_In o k v : own o k = Some v -> In (k, v) o.
Proof.
  induction o as [|[k' v'] o IH]; simpl; [discriminate|].
  destruct (String.eqb_spec k' k) as [->|Hne].
  - intros [= ->]. now left.
  - intros H. right. now apply IH.
Qed.

Lemma In_own o k v : NoDup (map fst o) -> In (k, v) o -> own o k = Some v.
Proof.
  induction o as [|[k' v'] o IH]; simpl; [tauto|].
  intros Hnd [H|H].
  - injection H as -> ->. now rewrite String.eqb_refl.
  - inversion Hnd as [|? ? Hnot Hnd']; subst.
    destruct (String.eqb_spec k' k) as [->|Hne].
    + exfalso. apply Hnot. apply in_map_iff. now exists (k, v).
    + now apply IH.
Qed.

Lemma keys_define o k v :
  map fst (define o k v)
  = if existsb (String.eqb k) (map fst o) then map fst o
    else (map fst o ++ [k])%list.
Proof.
  induction o as [|[k' v'] o IH]; simpl; [reflexivity|].
  rewrite (String.eqb_sym k k').
  destruct (String.eqb k' k); simpl; [reflexivity|].
  rewrite IH. now destruct (existsb (String.eqb k) (map fst o)).
Qed.

Lemma In_keys_define o k v k' :
  In k' (map fst (define o k v)) <-> In k' (map fst o) \/ k' = k.
Proof.
  induction o as [|[k0 v0] o IH]; simpl.
  - intuition.
  - destruct (String.eqb_spec k0 k) as [->|Hne]; simpl.
    + intuition.
    + rewrite IH. tauto.
Qed.

Lemma NoDup_define o k v :
  NoDup (map fst o) -> NoDup (map fst (define o k v)).
Proof.
  induction o as [|[k0 v0] o IH]; simpl; intros Hnd.
  - constructor; [tauto | constructor].
  - inversion Hnd as [|? ? Hnot Hnd']; subst.
    destruct (String.eqb_spec k0 k) as [->|Hne]; simpl.
    + now constructor.
    + constructor; [|now apply IH].
      rewrite In_keys_define. intros [H|H]; [tauto | congruence].
Qed.

(** Sum of a measure over the entries, across a write. *)
Lemma sum_define (f : V -> Z) o k v :
  sumZ (map (fun kv => f (snd kv)) (define o k v))
  = sumZ (map (fun kv => f (snd kv)) o)
    - match own o k with Some b => f b | None => 0 end + f v.
Proof.
  induction o as [|[k0 v0] o IH]; simpl.
  - lia.
  - destruct (String.eqb k0 k); simpl; [lia|].
    rewrite IH. lia.
Qed.

Lemma Forall_define (P : V -> Prop) o k v :
  Forall (fun kv => P (snd kv)) o -> P v ->
  Forall (fun kv => P (snd kv)) (define o k v).
Proof.
  induction o as [|[k0 v0] o IH]; simpl; intros Ho Hv.
  - now constructor.
  - inversion Ho; subst.
    destruct (String.eqb k0 k); constructor; auto.
Qed.

(** Reading every key back gives the entries in their order. *)
Lemma read_back (f : V -> Z) (d : V) o :
  NoDup (map fst o) ->
  map (fun k => f (match own o k with Some b => b | None => d end))
      (map fst o)
  = map (fun kv => f (snd kv)) o.
Proof.
  intros Hnd. rewrite map_map. apply map_ext_in.
  intros [k v] Hin. simpl. now rewrite (In_own o k v).
Qed.

Lemma insertIndex_perm (e : Z * (string * V)) l :
  Permutation (insertIndex e l) (e :: l).
Proof.
  induction l as [|e' l IH]; simpl; [reflexivity|].
  destruct (fst e <=? fst e'); [reflexivity|].
  rewrite IH. apply perm_swap.
Qed.

Lemma insertIndex_In (e e' : Z * (string * V)) l :
  In e' (insertIndex e l) <-> e' = e \/ In e' l.
Proof.
  split; intros H.
  - apply (Permutation_in _ (insertIndex_perm e l)) in H.
    destruct H as [H|H]; auto.
  - apply (Permutation_in _ (Permutation_sym (insertIndex_perm e l))).
    destruct H as [H|H]; [left; auto | now right].
Qed.

Lemma insertIndex_sorted (e : Z * (string * V)) l :
  StronglySorted (fun a b => fst a <= fst b) l ->
  StronglySorted (fun a b => fst a <= fst b) (insertIndex e l).
Proof.
  induction l as [|e' l IH]; simpl; intros Hs.
  - constructor; constructor.
  - inversion Hs as [|? ? Hs' Hall]; subst.
    destruct (Z.leb_spec (fst e) (fst e')) as [Hle|Hgt].
    + constructor; [assumption|].
      constructor; [assumption|].
      eapply Forall_impl; [|exact Hall]. intros x Hx. simpl in *. lia.
    + constructor; [now apply IH|].
      apply Forall_forall. intros x Hx.
      apply insertIndex_In in Hx. destruct Hx as [->|Hx]; [lia|].
      rewrite Forall_forall in Hall. now apply Hall.
Qed.

Lemma indexEntries_sorted o :
  StronglySorted (fun a b => fst a <= fst b) (indexEntries o).
Proof.
  induction o as [|[k v] o IH]; simpl; [constructor|].
  destruct (arrayIndex k); [now apply insertIndex_sorted | assumption].
Qed.

Lemma indexEntries_value o :
  Forall (fun e => indexValue (fst (snd e)) = fst e) (indexEntries o).
Proof.
  induction o as [|[k v] o IH]; simpl; [constructor|].
  destruct (arrayIndex k) as [n|] eqn:E; [|assumption].
  apply Forall_forall. intros x Hx.
  apply insertIndex_In in Hx. destruct Hx as [->|Hx].
  - unfold indexValue. simpl. now rewrite E.
  - rewrite Forall_forall in IH. now apply IH.
Qed.

Lemma indexEntries_perm o :
  Permutation (map snd (indexEntries o)) (filter (fun kv => isIndex (fst kv)) o).
Proof.
  unfold isIndex.
  induction o as [|[k v] o IH]; simpl; [reflexivity|].
  destruct (arrayIndex k) as [n|]; [|assumption].
  rewrite (Permutation_map snd (insertIndex_perm (n, (k, v)) _)).
  simpl. now constructor.
Qed.

Lemma keys_of_filter (f : string -> bool) o :
  map fst (filter (fun kv => f (fst kv)) o) = filter f (map fst o).
Proof.
  induction o as [|[k v] o IH]; simpl; [reflexivity|].
  destruct (f k); simpl; now rewrite IH.
Qed.

(** [Object.keys]: first the array indices among the keys, in ascending
    numeric order, then the other keys as they were created. *)
Lemma Object_keys_order o :
  exists idx,
    Object_keys o
    = (idx ++ filter (fun k => negb (isIndex k)) (map fst o))%list
    /\ Permutation idx (filter isIndex (map fst o))
    /\ StronglySorted (fun a b => indexValue a <= indexValue b) idx.
Proof.
  exists (map fst (map snd (indexEntries o))). split; [|split].
  - unfold Object_keys, ownEntries. rewrite map_app. f_equal.
    unfold namedEntries. rewrite <- keys_of_filter. f_equal.
    apply filter_ext. intros [k v]. unfold isIndex. simpl.
    now destruct (arrayIndex k).
  - rewrite <- keys_of_filter. apply Permutation_map, indexEntries_perm.
  - pose proof (indexEntries_sorted o) as Hs.
    pose proof (indexEntries_value o) as Hv.
    induction Hs as [|e l Hs IH Hall]; simpl; [constructor|].
    inversion Hv as [|? ? He Hl]; subst.
    constructor; [now apply IH|].
    rewrite Forall_forall in *. intros k Hk.
    apply in_map_iff in Hk. destruct Hk as [kv [<- Hk]].
    apply in_map_iff in Hk. destruct Hk as [e' [<- Hk]].
    rewrite He, (Hl e' Hk). now apply Hall.
Qed.

Lemma ownEntries_perm o : Permutation (ownEntries o) o.
Proof.
  unfold ownEntries.
  induction o as [|[k v] o IH]; simpl; [reflexivity|].
  destruct (arrayIndex k) as [n|]; simpl.
  - rewrite (Permutation_map snd (insertIndex_perm (n, (k, v)) _)).
    simpl. now constructor.
  - rewrite <- Permutation_middle. now constructor.
Qed.

Lemma ownEntries_plain o :
  Forall (fun k => arrayIndex k = None) (map fst o) -> ownEntries o = o.
Proof.
  unfold ownEntries.
  induction o as [|[k v] o IH]; simpl; intros H; [reflexivity|].
  inversion H as [|? ? Hk Ho]; subst. simpl in Hk.
  rewrite Hk. specialize (IH Ho).
  destruct (map snd (indexEntries o)) as [|e l] eqn:E.
  - simpl in *. now rewrite IH.
  - exfalso. clear - Ho E.
    assert (Hnil : indexEntries o = []).
    { clear E. induction o as [|[k v] o IH]; simpl; [reflexivity|].
      inversion Ho as [|? ? Hk Ho']; subst. simpl in Hk.
      rewrite Hk. now apply IH. }
    rewrite Hnil in E. discriminate.
Qed.

Lemma Object_keys_perm o : Permutation (Object_keys o) (map fst o).
Proof. unfold Object_keys. apply Permutation_map, ownEntries_perm. Qed.

Lemma Object_values_perm o : Permutation (Object_values o) (map snd o).
Proof. unfold Object_values. apply Permutation_map, ownEntries_perm. Qed.

End Objects.

Lemma sumZ_perm (l l' : list Z) : Permutation l l' -> sumZ l = sumZ l'.
Proof. induction 1; simpl; lia. Qed.

(* ===================================================================== *)
(** * Sorting of labels *)
(* ===================================================================== *)

Section Sorting.

Lemma str_lt_trans (a b c : string) : str_lt a b -> str_lt b c -> str_lt a c.
Proof. apply String_as_OT.lt_strorder. Qed.

Lemma str_leb_true (a b : string) :
  str_leb a b = true -> a = b \/ str_lt a b.
Proof.
  unfold str_leb, str_lt.
  destruct (String_as_OT.compare_spec a b); intros; try discriminate; auto.
Qed.

Lemma str_leb_false (a b : string) : str_leb a b = false -> str_lt b a.
Proof.
  unfold str_leb, str_lt.
  destruct (String_as_OT.compare_spec a b) as [H|H|H];
    intros; try discriminate.
  exact H.
Qed.

Lemma insertSorted_perm (k : string) (l : list string) :
  Permutation (insertSorted k l) (k :: l).
Proof.
  induction l as [|k' l IH]; simpl; [reflexivity|].
  destruct (str_leb k k'); [reflexivity|].
  rewrite IH. apply perm_swap.
Qed.

Lemma Array_sort_perm (l : list string) : Permutation (Array_sort l) l.
Proof.
  induction l as [|k l IH]; simpl; [reflexivity|].
  rewrite insertSorted_perm. now constructor.
Qed.

Lemma insertSorted_sorted (k : string) (l : list string) :
  ~ In k l -> StronglySorted str_lt l ->
  StronglySorted str_lt (insertSorted k l).
Proof.
  induction l as [|k' l IH]; simpl; intros Hnot Hs.
  - constructor; constructor.
  - inversion Hs as [|? ? Hs' Hall]; subst.
    destruct (str_leb k k') eqn:E.
    + apply str_leb_true in E. destruct E as [->|Hlt]; [tauto|].
      constructor; [assumption|].
      constructor; [assumption|].
      eapply Forall_impl; [|exact Hall].
      intros x Hx. now apply str_lt_trans with k'.
    + apply str_leb_false in E.
      constructor; [apply IH; tauto|].
      apply Forall_forall. intros x Hx.
      apply (Permutation_in _ (insertSorted_perm k l)) in Hx.
      destruct Hx as [<-|Hx]; [assumption|].
      rewrite Forall_forall in Hall. now apply Hall.
Qed.

Lemma Array_sort_sorted (l : list string) :
  NoDup l -> StronglySorted str_lt (Array_sort l).
Proof.
  induction l as [|k l IH]; simpl; intros Hnd.
  - constructor.
  - inversion Hnd as [|? ? Hnot Hnd']; subst.
    apply insertSorted_sorted; [|now apply IH].
    intros H. apply Hnot.
    now apply (Permutation_in _ (Array_sort_perm l)).
Qed.

End Sorting.

(** The order is the one of string comparison, not of the calendar:
    October sorts before February of the same year. *)
Example october_before_february :
  Array_sort ["2024-2"; "2024-10"; "2023-12"] = ["2023-12"; "2024-10"; "2024-2"].
Proof. reflexivity. Qed.

(* ===================================================================== *)
(** * Month keys *)
(* ===================================================================== *)

Section MonthKeys.

Variable rt : Runtime.

Lemma chars_append (a b : string) :
  list_ascii_of_string (a ++ b)
  = (list_ascii_of_string a ++ list_ascii_of_string b)%list.
Proof. induction a as [|c a IH]; simpl; [reflexivity | now rewrite IH]. Qed.

Lemma dash_in_key (a b : string) :
  In "-"%char (list_ascii_of_string (a ++ "-" ++ b)).
Proof. rewrite chars_append. apply in_or_app. right. now left. Qed.

Lemma digitsValue_nondigit (cs : list ascii) (c : ascii) :
  In c cs -> digit c = None -> forall acc, digitsValue acc cs = None.
Proof.
  induction cs as [|c' cs IH]; simpl; [tauto|].
  intros [->|Hin] Hc acc.
  - now rewrite Hc.
  - destruct (digit c'); [now apply IH | reflexivity].
Qed.

Lemma dashed_not_index (k : string) :
  In "-"%char (list_ascii_of_string k) -> arrayIndex k = None.
Proof.
  intros Hin. unfold arrayIndex.
  destruct (list_ascii_of_string k) as [|c cs] eqn:E; [reflexivity|].
  now rewrite (digitsValue_nondigit (c :: cs) "-"%char Hin eq_refl).
Qed.

Lemma dashed_not_inherited (k : string) :
  In "-"%char (list_ascii_of_string k) -> inherited k = false.
Proof.
  intros Hin. unfold inherited.
  destruct (existsb (String.eqb k) ObjectPrototypeNames) eqn:E;
    [|reflexivity].
  exfalso. apply existsb_exists in E. destruct E as [n [Hn Heq]].
  apply String.eqb_eq in Heq. subst n.
  unfold ObjectPrototypeNames in Hn. simpl in Hn.
  repeat (destruct Hn as [<-|Hn];
          [simpl in Hin; intuition discriminate|]).
  exact Hn.
Qed.

Lemma monthKeyOf_dashed (u : User) :
  In "-"%char (list_ascii_of_string (monthKeyOf rt u)).
Proof. apply dash_in_key. Qed.

Lemma monthKeyOf_invalid (u : User) :
  newDate rt (created_at u) = InvalidDate -> monthKeyOf rt u = "NaN-NaN".
Proof. unfold monthKeyOf. now intros ->. Qed.

(** The table of [MonthFromTime] never leaves 0..11. *)
Lemma MonthFromTime_range (t : Z) : 0 <= MonthFromTime t <= 11.
Proof.
  unfold MonthFromTime.
  repeat match goal with
         | |- context [if ?c then _ else _] => destruct c
         end; lia.
Qed.

(** One turn of the loop is a write of the bumped bucket. *)
Lemma registerUser_define (o : props MonthBucket) (u : User) :
  registerUser rt o u
  = define o (monthKeyOf rt u)
      (countRole (role u) (bucketAt o (monthKeyOf rt u))).
Proof.
  unfold registerUser, bucketAt.
  destruct (own o (monthKeyOf rt u)); [reflexivity|].
  now rewrite (dashed_not_inherited _ (monthKeyOf_dashed u)).
Qed.

Lemma monthlyData_keys (l : list User) :
  forall (o : props MonthBucket) (k : string),
    In k (map fst (fold_left (registerUser rt) l o)) <->
    In k (map fst o) \/ exists u, In u l /\ monthKeyOf rt u = k.
Proof.
  induction l as [|u l IH]; simpl; intros o k.
  - split; [tauto | intros [H|[u [[] _]]]; exact H].
  - rewrite IH, registerUser_define, In_keys_define. split.
    + intros [[H|H]|[u' [H1 H2]]].
      * now left.
      * right. exists u. auto.
      * right. exists u'. auto.
    + intros [H|[u' [[<-|H1] H2]]].
      * left. now left.
      * left. right. now symmetry.
      * right. exists u'. auto.
Qed.

Lemma monthlyData_NoDup (l : list User) :
  forall o : props MonthBucket,
    NoDup (map fst o) -> NoDup (map fst (fold_left (registerUser rt) l o)).
Proof.
  induction l as [|u l IH]; simpl; intros o Hnd; [assumption|].
  apply IH. rewrite registerUser_define. now apply NoDup_define.
Qed.

Lemma monthlyData_index_free (l : list User) :
  Forall (fun k => arrayIndex k = None)
         (map fst (monthlyDataOf rt l)).
Proof.
  apply Forall_forall. intros k Hk.
  apply monthlyData_keys in Hk. destruct Hk as [[]|[u [_ <-]]].
  apply dashed_not_index, monthKeyOf_dashed.
Qed.

Lemma withRole_cons (r : string) (u : User) (l : list User) :
  withRole r (u :: l)
  = (if String.eqb (role u) r then 1 else 0) + withRole r l.
Proof.
  unfold withRole. simpl.
  destruct (String.eqb (role u) r); simpl List.length; lia.
Qed.

Lemma monthlyData_students (l : list User) :
  forall o : props MonthBucket,
    sumZ (map (fun kv => students (snd kv)) (fold_left (registerUser rt) l o))
    = sumZ (map (fun kv => students (snd kv)) o) + withRole "student" l.
Proof.
  induction l as [|u l IH]; intros o.
  - unfold withRole. simpl. lia.
  - simpl fold_left. rewrite IH, registerUser_define, sum_define.
    rewrite withRole_cons. unfold bucketAt, countRole.
    destruct (own o (monthKeyOf rt u)) as [b|];
      destruct (String.eqb (role u) "student") eqn:E1;
      try destruct (String.eqb (role u) "lecturer");
      cbn [students lecturers]; lia.
Qed.

Lemma monthlyData_lecturers (l : list User) :
  forall o : props MonthBucket,
    sumZ (map (fun kv => lecturers (snd kv))
            (fold_left (registerUser rt) l o))
    = sumZ (map (fun kv => lecturers (snd kv)) o) + withRole "lecturer" l.
Proof.
  induction l as [|u l IH]; intros o.
  - unfold withRole. simpl. lia.
  - simpl fold_left. rewrite IH, registerUser_define, sum_define.
    rewrite withRole_cons. unfold bucketAt, countRole.
    destruct (String.eqb_spec (role u) "student") as [E1|E1].
    + rewrite E1. cbn [String.eqb Ascii.eqb Bool.eqb].
      destruct (own o (monthKeyOf rt u)) as [b|];
        cbn [students lecturers]; lia.
    + destruct (own o (monthKeyOf rt u)) as [b|];
        destruct (String.eqb (role u) "lecturer");
        cbn [students lecturers]; lia.
Qed.

(** The labels of the registration chart: the keys of [monthlyData],
    sorted. *)
Lemma registration_labels_perm (l : list User) :
  Permutation (Array_sort (Object_keys (monthlyDataOf rt l)))
              (map fst (monthlyDataOf rt l)).
Proof. rewrite Array_sort_perm. apply Object_keys_perm. Qed.

Lemma registration_series_sum (f : MonthBucket -> Z) (l : list User) :
  sumZ (map (fun k => f (bucketAt (monthlyDataOf rt l) k))
          (Array_sort (Object_keys (monthlyDataOf rt l))))
  = sumZ (map (fun kv => f (snd kv)) (monthlyDataOf rt l)).
Proof.
  rewrite (sumZ_perm _ _
             (Permutation_map _ (registration_labels_perm l))).
  unfold bucketAt. rewrite read_back; [reflexivity|].
  apply monthlyData_NoDup. constructor.
Qed.

End MonthKeys.

(* ===================================================================== *)
(** * Sender counts *)
(* ===================================================================== *)

Section Senders.

Variable rt : Runtime.

Lemma proto_is_inherited (k : string) :
  inherited k = false -> String.eqb k "__proto__" = false.
Proof.
  intros H. destruct (String.eqb_spec k "__proto__") as [->|]; auto.
Qed.

Lemma entries_are_counts (o : props value) (k : string) (v : value) :
  Forall (fun kv => isCount (snd kv)) o -> own o k = Some v -> isCount v.
Proof.
  intros Ho Hk. apply own_Some_In in Hk.
  rewrite Forall_forall in Ho. exact (Ho _ Hk).
Qed.

(** Under a name that [Object.prototype] does not answer, one turn of
    the loop writes the previous count plus one. *)
Lemma recordSender_count (o : props value) (a : Announcement) :
  inherited (senderOf a) = false ->
  Forall (fun kv => isCount (snd kv)) o ->
  recordSender rt o a
  = define o (senderOf a)
      (VNum (match own o (senderOf a) with
             | Some v => valueNum v
             | None => 0
             end + 1)).
Proof.
  intros Hk Ho. unfold recordSender, nextCount, assign.
  destruct (own o (senderOf a)) as [[n|s]|] eqn:E.
  - simpl. destruct (Z.eqb_spec n 0) as [->|]; reflexivity.
  - destruct (entries_are_counts o _ _ Ho E).
  - now rewrite Hk, (proto_is_inherited _ Hk).
Qed.

Lemma senderData_counts (l : list Announcement) :
  Forall (fun a => inherited (senderOf a) = false) l ->
  forall o : props value,
    Forall (fun kv => isCount (snd kv)) o ->
    Forall (fun kv => isCount (snd kv)) (fold_left (recordSender rt) l o)
    /\ sumZ (map (fun kv => valueNum (snd kv))
               (fold_left (recordSender rt) l o))
       = sumZ (map (fun kv => valueNum (snd kv)) o) + Z.of_nat (List.length l).
Proof.
  induction 1 as [|a l Ha Hl IH]; intros o Ho.
  - split; [assumption | simpl; lia].
  - simpl fold_left. rewrite (recordSender_count o a Ha Ho).
    destruct (IH (define o (senderOf a)
                    (VNum (match own o (senderOf a) with
                           | Some v => valueNum v
                           | None => 0
                           end + 1)))) as [H1 H2].
    { apply (Forall_define isCount); [assumption | exact I]. }
    split; [assumption|].
    rewrite H2, (sum_define valueNum).
    cbn [valueNum List.length].
    destruct (own o (senderOf a)); lia.
Qed.

Lemma sumCounts_counts (vs : list value) :
  Forall isCount vs -> sumCounts vs = Some (sumZ (map valueNum vs)).
Proof.
  induction 1 as [|v vs Hv Hvs IH]; [reflexivity|].
  destruct v as [n|s]; [|destruct Hv].
  simpl. now rewrite IH.
Qed.

Lemma senderData_keys (l : list Announcement) :
  Forall (fun a => inherited (senderOf a) = false) l ->
  forall o : props value,
    Forall (fun kv => isCount (snd kv)) o ->
    map fst (fold_left (recordSender rt) l o)
    = fold_left addKey (map senderOf l) (map fst o).
Proof.
  induction 1 as [|a l Ha Hl IH]; intros o Ho; [reflexivity|].
  simpl. rewrite (recordSender_count o a Ha Ho), IH.
  - now rewrite keys_define.
  - apply (Forall_define isCount); [assumption | exact I].
Qed.

Lemma occurrences_snoc (seen : list string) (k0 k : string) :
  occurrences (seen ++ [k0]) k
  = occurrences seen k + (if String.eqb k0 k then 1 else 0).
Proof.
  unfold occurrences. rewrite count_occ_app. simpl.
  destruct (string_dec k0 k) as [->|Hne].
  - rewrite String.eqb_refl. lia.
  - apply String.eqb_neq in Hne. rewrite Hne. lia.
Qed.

Lemma occurrences_nonneg (seen : list string) (k : string) :
  0 <= occurrences seen k.
Proof. unfold occurrences. lia. Qed.

Lemma senderData_own (l : list Announcement) :
  Forall (fun a => inherited (senderOf a) = false) l ->
  forall (o : props value) (seen : list string),
    Forall (fun kv => isCount (snd kv)) o ->
    (forall k, own o k = counted seen k) ->
    forall k,
      own (fold_left (recordSender rt) l o) k
      = counted (seen ++ map senderOf l) k.
Proof.
  induction 1 as [|a l Ha Hl IH]; intros o seen Ho Hown k.
  - simpl. now rewrite app_nil_r.
  - simpl fold_left. rewrite (recordSender_count o a Ha Ho).
    change (seen ++ map senderOf (a :: l))%list
      with (seen ++ [senderOf a] ++ map senderOf l)%list.
    rewrite app_assoc. apply IH.
    + apply (Forall_define isCount); [assumption | exact I].
    + intros k'. unfold counted. rewrite occurrences_snoc.
      pose proof (occurrences_nonneg seen k') as Hpos.
      destruct (String.eqb_spec (senderOf a) k') as [<-|Hne].
      * rewrite own_define_same, Hown. unfold counted.
        destruct (Z.eqb_spec (occurrences seen (senderOf a)) 0) as [E|E];
          cbn [valueNum].
        -- rewrite E. reflexivity.
        -- destruct (Z.eqb_spec (occurrences seen (senderOf a) + 1) 0);
             [lia | reflexivity].
      * rewrite own_define_other by congruence.
        rewrite Hown, Z.add_0_r. reflexivity.
Qed.

Lemma addKey_snoc (acc : list string) (k : string) :
  addKey acc k = if in_dec string_dec k acc then acc else (acc ++ [k])%list.
Proof.
  unfold addKey. destruct (in_dec string_dec k acc) as [Hin|Hnot].
  - replace (existsb (String.eqb k) acc) with true; [reflexivity|].
    symmetry. apply existsb_exists. exists k.
    split; [assumption | apply String.eqb_refl].
  - destruct (existsb (String.eqb k) acc) eqn:E; [|reflexivity].
    exfalso. apply Hnot. apply existsb_exists in E.
    destruct E as [x [Hx Hk]]. apply String.eqb_eq in Hk. now subst.
Qed.

(** [firstSeen] in terms of the library's [nodup], which keeps the last
    occurrence of each element. *)
Lemma firstSeen_nodup (l : list string) :
  firstSeen l = rev (nodup string_dec (rev l)).
Proof.
  unfold firstSeen. induction l as [|k l IH] using rev_ind; [reflexivity|].
  rewrite fold_left_app, rev_app_distr. simpl. rewrite IH, addKey_snoc.
  destruct (in_dec string_dec k (rev l)) as [H1|H1];
    destruct (in_dec string_dec k (rev (nodup string_dec (rev l))))
      as [H2|H2]; try reflexivity.
  - exfalso. apply H2. rewrite <- in_rev. now apply nodup_In.
  - exfalso. apply H1. rewrite <- in_rev in H2. now apply nodup_In in H2.
Qed.

Lemma firstSeen_In (l : list string) (k : string) :
  In k (firstSeen l) <-> In k l.
Proof.
  rewrite firstSeen_nodup, <- in_rev, nodup_In, <- in_rev. reflexivity.
Qed.

Lemma firstSeen_NoDup (l : list string) : NoDup (firstSeen l).
Proof.
  rewrite firstSeen_nodup. apply NoDup_rev, NoDup_nodup.
Qed.

End Senders.

(* ===================================================================== *)
(** * Totals of the bucketing step *)
(* ===================================================================== *)

(** Registration report: the counts of all buckets add up to the number of
    filtered records whose role is "student" or "lecturer", bucket by
    bucket in [monthlyData] as in the two chart series.  Activity report:
    the counts add up to the number of filtered records as long as no
    actor name is the name of a property of [Object.prototype]. *)
Theorem bucket_totals :
  forall (rt : Runtime) (st : State),
    let reg := getUserRegistrationData rt st in
    let act := getAnnouncementActivityData rt st in
    sumZ (map (fun b => students b + lecturers b)
            (Object_values (monthlyDataOf rt (tableData reg))))
    = withRole "student" (tableData reg) + withRole "lecturer" (tableData reg)
    /\ (exists sd ld,
           map data (datasets (chartData reg)) = [sd; ld]
           /\ sumZ sd = withRole "student" (tableData reg)
           /\ sumZ ld = withRole "lecturer" (tableData reg))
    /\ (Forall (fun a => inherited (senderOf a) = false) (tableData act) ->
        sumCounts (Object_values (senderDataOf rt (tableData act)))
        = Some (Z.of_nat (List.length (tableData act)))
        /\ exists vs,
            map data (datasets (chartData act)) = [vs]
            /\ sumCounts vs = Some (Z.of_nat (List.length (tableData act)))).
Proof.
  intros rt st reg act.
  assert (Hst : forall l,
             sumZ (map (fun kv => students (snd kv)) (monthlyDataOf rt l))
             = withRole "student" l)
    by (intros l; unfold monthlyDataOf; rewrite monthlyData_students;
        simpl; lia).
  assert (Hle : forall l,
             sumZ (map (fun kv => lecturers (snd kv)) (monthlyDataOf rt l))
             = withRole "lecturer" l)
    by (intros l; unfold monthlyDataOf; rewrite monthlyData_lecturers;
        simpl; lia).
  split; [|split].
  - rewrite (sumZ_perm _ _ (Permutation_map _ (Object_values_perm _))).
    rewrite map_map. rewrite <- Hst, <- Hle.
    generalize (monthlyDataOf rt (tableData reg)).
    induction p as [|kv p IH]; simpl in *; lia.
  - exists (map (fun k => students (bucketAt (monthlyDataOf rt (tableData reg)) k))
              (Array_sort (Object_keys (monthlyDataOf rt (tableData reg))))),
           (map (fun k => lecturers (bucketAt (monthlyDataOf rt (tableData reg)) k))
              (Array_sort (Object_keys (monthlyDataOf rt (tableData reg))))).
    split; [reflexivity|]. split.
    + rewrite (registration_series_sum rt students). apply Hst.
    + rewrite (registration_series_sum rt lecturers). apply Hle.
  - intros Hplain.
    assert (Hact : sumCounts (Object_values (senderDataOf rt (tableData act)))
                   = Some (Z.of_nat (List.length (tableData act)))).
    { destruct (senderData_counts rt _ Hplain [] (Forall_nil _)) as [Hc Hs].
      fold (senderDataOf rt (tableData act)) in Hc, Hs.
      rewrite sumCounts_counts.
      - f_equal.
        rewrite (sumZ_perm _ _ (Permutation_map valueNum
                                  (Object_values_perm _))).
        rewrite map_map. rewrite Hs. simpl. lia.
      - apply (Permutation_Forall (Permutation_sym (Object_values_perm _))).
        apply Forall_map. exact Hc. }
    split; [exact Hact|].
    eexists. split; [reflexivity|]. exact Hact.
Qed.

Example bucket_totals_of_the_scenarios :
  sumZ (map (fun b => students b + lecturers b)
          (Object_values (monthlyDataOf utcRuntime scenarioA))) = 3
  /\ sumCounts (Object_values (senderDataOf utcRuntime scenarioC)) = Some 3.
Proof. split; reflexivity. Qed.

(** C5.  The counts of the activity report should add up to the number of
    filtered records, every actor name being counted.  They do not: one
    record whose actor is named [__proto__] leaves [senderData] empty (the
    counts total 0 for one filtered record), and under the name
    [constructor] the entry is a string, not a count, although
    [senderData] is declared [{ [key: string]: number }]. *)
Lemma C5_inherited_name_is_not_counted :
  let lost := announcementState None None
                [mkAnnouncement 1 (Some "__proto__") "2024-01-15"] in
  let text := announcementState None None
                [mkAnnouncement 1 (Some "constructor") "2024-01-15"] in
  List.length (tableData (getAnnouncementActivityData utcRuntime lost)) = 1%nat
  /\ map data (datasets (chartData (getAnnouncementActivityData utcRuntime lost)))
     = [[]]
  /\ sumCounts (Object_values
                  (senderDataOf utcRuntime
                     (tableData (getAnnouncementActivityData utcRuntime lost))))
     <> Some 1
  /\ map data (datasets (chartData (getAnnouncementActivityData utcRuntime text)))
     = [[VStr "function Object() { [native code] }1"]].
Proof.
  intros lost text. split; [|split; [|split]]; try (vm_compute; reflexivity).
  intros H. vm_compute in H. discriminate.
Qed.

(* ===================================================================== *)
(** * Labels of the activity chart *)
(* ===================================================================== *)

Lemma scenarioC_senderData (rt : Runtime) (l : list Announcement) :
  map sender_name l = [Some "Alice"; Some "Bob"; Some "Alice"] ->
  senderDataOf rt l = [("Alice", VNum 2); ("Bob", VNum 1)].
Proof.
  destruct l as [|a1 [|a2 [|a3 [|a4 l]]]]; try discriminate.
  intros [= H1 H2 H3].
  unfold senderDataOf. cbn [fold_left].
  unfold recordSender, senderOf. rewrite H1, H2, H3. reflexivity.
Qed.

(** C6, as amended.  The bucket key of an activity record is its actor
    name, "Unknown" when the name is absent or empty.  The chart labels
    are the distinct keys in the order of [Object.keys]: first the keys
    that are array indices, in ascending numeric order, then all the
    others in first-seen order; with no array index among the names the
    labels are simply in first-seen order.  The dataset holds, label by
    label, the number of records of that actor.  (All this for names that
    [Object.prototype] does not answer.)  On the actor names Alice, Bob,
    Alice: mapping {Alice: 2, Bob: 1}, labels [Alice, Bob], dataset
    [2, 1]. *)
Theorem C6_activity_labels_first_seen :
  forall (rt : Runtime) (st : State),
    let act := getAnnouncementActivityData rt st in
    let senders := map senderOf (tableData act) in
    (forall a : Announcement,
        senderOf a = match sender_name a with
                     | None | Some "" => "Unknown"
                     | Some s => s
                     end)
    /\ (Forall (fun k => inherited k = false) senders ->
        (exists idx,
            labels (chartData act)
            = (idx ++ filter (fun k => negb (isIndex k)) (firstSeen senders))%list
            /\ Permutation idx (filter isIndex (firstSeen senders))
            /\ StronglySorted (fun a b => indexValue a <= indexValue b) idx)
        /\ (Forall (fun k => isIndex k = false) senders ->
            labels (chartData act) = firstSeen senders)
        /\ map data (datasets (chartData act))
           = [map (fun k => VNum (occurrences senders k))
                (labels (chartData act))])
    /\ (map sender_name (tableData act)
        = [Some "Alice"; Some "Bob"; Some "Alice"] ->
        senderDataOf rt (tableData act) = [("Alice", VNum 2); ("Bob", VNum 1)]
        /\ labels (chartData act) = ["Alice"; "Bob"]
        /\ map data (datasets (chartData act)) = [[VNum 2; VNum 1]]).
Proof.
  intros rt st act senders.
  set (filtered := filterAnnouncementsByDateRange rt st (announcements st)).
  split; [|split].
  - intros a. unfold senderOf, opt_or, str_or.
    destruct (sender_name a) as [[|c s]|]; reflexivity.
  - intros Hplain.
    assert (Hinh : Forall (fun a => inherited (senderOf a) = false) filtered).
    { apply Forall_forall. intros a Ha.
      rewrite Forall_forall in Hplain. apply Hplain.
      exact (in_map senderOf _ _ Ha). }
    assert (Hkeys : map fst (senderDataOf rt filtered) = firstSeen senders)
      by (exact (senderData_keys rt filtered Hinh [] (Forall_nil _))).
    assert (Hlab : labels (chartData act)
                   = Object_keys (senderDataOf rt filtered)) by reflexivity.
    assert (Hval : map data (datasets (chartData act))
                   = [Object_values (senderDataOf rt filtered)]) by reflexivity.
    split; [|split].
    + destruct (Object_keys_order (senderDataOf rt filtered))
        as (idx & H1 & H2 & H3).
      exists idx. rewrite Hlab, H1. rewrite Hkeys in H2 |- *. auto.
    + intros Hnoidx. rewrite Hlab, <- Hkeys.
      unfold Object_keys. rewrite ownEntries_plain; [reflexivity|].
      rewrite Hkeys. apply Forall_forall. intros k Hk.
      apply (proj1 (firstSeen_In _ _)) in Hk.
      rewrite Forall_forall in Hnoidx. specialize (Hnoidx k Hk).
      unfold isIndex in Hnoidx.
      destruct (arrayIndex k); [discriminate | reflexivity].
    + rewrite Hval, Hlab. unfold Object_values, Object_keys.
      f_equal. rewrite map_map. apply map_ext_in.
      intros [k v] Hin. cbn [fst snd].
      apply (Permutation_in _ (ownEntries_perm _)) in Hin.
      assert (Hnd : NoDup (map fst (senderDataOf rt filtered)))
        by (rewrite Hkeys; apply firstSeen_NoDup).
      pose proof (In_own _ _ _ Hnd Hin) as Hown.
      unfold senderDataOf in Hown.
      rewrite (senderData_own rt filtered Hinh [] [] (Forall_nil _)) in Hown
        by reflexivity.
      change ([] ++ map senderOf filtered)%list with senders in Hown.
      unfold counted in Hown.
      destruct (occurrences senders k =? 0); [discriminate|].
      now injection Hown.
  - intros Hnames.
    pose proof (scenarioC_senderData rt _ Hnames) as Hdata.
    split; [exact Hdata|].
    subst act. cbn [tableData getAnnouncementActivityData] in Hdata.
    cbn [labels data datasets chartData getAnnouncementActivityData map].
    rewrite Hdata. split; reflexivity.
Qed.

Lemma C6_activity_labels_witness :
  let st := announcementState None None
              (mkAnnouncement 4 None "2024-01-10" :: scenarioC) in
  let sc := announcementState None None scenarioC in
  (labels (chartData (getAnnouncementActivityData utcRuntime st))
   = ["Unknown"; "Alice"; "Bob"]
   /\ map data (datasets (chartData (getAnnouncementActivityData utcRuntime st)))
      = [[VNum 1; VNum 2; VNum 1]])
  /\ labels (chartData (getAnnouncementActivityData utcRuntime sc))
     = ["Alice"; "Bob"]
  /\ map data (datasets (chartData (getAnnouncementActivityData utcRuntime sc)))
     = [[VNum 2; VNum 1]].
Proof.
  intros st sc.
  assert (H : Forall (fun k => inherited k = false)
                (map senderOf
                   (tableData (getAnnouncementActivityData utcRuntime st))))
    by (repeat constructor).
  assert (H' : Forall (fun k => isIndex k = false)
                 (map senderOf
                    (tableData (getAnnouncementActivityData utcRuntime st))))
    by (repeat constructor).
  destruct (proj1 (proj2 (C6_activity_labels_first_seen utcRuntime st)) H)
    as (_ & H2 & H3).
  split.
  - split; [exact (H2 H') | exact H3].
  - exact (proj2 (proj2 (proj2 (C6_activity_labels_first_seen utcRuntime sc))
                    eq_refl)).
Defined.

(** C6 as stated fails: a name that is an array index is listed before
    the others whenever it was first seen. *)
Lemma C6_index_names_come_first :
  let st := announcementState None None
              [ mkAnnouncement 1 (Some "Bob") "2024-01-15";
                mkAnnouncement 2 (Some "7") "2024-01-16" ] in
  map senderOf (tableData (getAnnouncementActivityData utcRuntime st))
  = ["Bob"; "7"]
  /\ labels (chartData (getAnnouncementActivityData utcRuntime st))
     = ["7"; "Bob"].
Proof. split; reflexivity. Qed.

(* ===================================================================== *)
(** * Labels of the registration chart *)
(* ===================================================================== *)

Section RegistrationLabels.

Variable rt : Runtime.

Lemma registration_labels_In (st : State) (k : string) :
  In k (labels (chartData (getUserRegistrationData rt st))) <->
  exists u, In u (tableData (getUserRegistrationData rt st))
            /\ monthKeyOf rt u = k.
Proof.
  cbn [labels chartData tableData getUserRegistrationData].
  set (filtered := filterUsersByDateRange rt st (users st)).
  split.
  - intros H.
    apply (Permutation_in _ (registration_labels_perm rt filtered)) in H.
    apply monthlyData_keys in H. destruct H as [[]|H]. exact H.
  - intros H.
    apply (Permutation_in _
             (Permutation_sym (registration_labels_perm rt filtered))).
    apply monthlyData_keys. now right.
Qed.

Lemma registration_labels_sorted (st : State) :
  StronglySorted str_lt (labels (chartData (getUserRegistrationData rt st))).
Proof.
  cbn [labels chartData getUserRegistrationData].
  apply Array_sort_sorted.
  apply (Permutation_NoDup (Permutation_sym (Object_keys_perm _))).
  apply monthlyData_NoDup. constructor.
Qed.

(** Calendar fields depend on the day only. *)
Lemma same_day (t t' : Z) :
  Day t = Day t' ->
  YearFromTime t = YearFromTime t' /\ MonthFromTime t = MonthFromTime t'.
Proof.
  intros H.
  unfold MonthFromTime, InLeapYear, DayWithinYear, YearFromTime.
  now rewrite H.
Qed.

Lemma Day_within (d z : Z) :
  0 <= z < msPerDay -> Day (d * msPerDay + z) = Day (d * msPerDay).
Proof.
  intros Hz. unfold Day.
  rewrite Z.div_add_l by (unfold msPerDay; lia).
  rewrite Z.div_small by assumption.
  rewrite Z.div_mul by (unfold msPerDay; lia). lia.
Qed.

(** A date-only timestamp keeps its calendar month in local time as long
    as local time is not behind UTC. *)
Lemma monthKeyOf_midnight (u : User) (d : Z) :
  (forall x, 0 <= LocalTZA rt x < msPerDay) ->
  newDate rt (created_at u) = TimeValue (d * msPerDay) ->
  monthKeyOf rt u
  = ToString (Int (YearFromTime (d * msPerDay))) ++ "-"
      ++ ToString (Int (MonthFromTime (d * msPerDay) + 1)).
Proof.
  intros Htz Hd. unfold monthKeyOf. rewrite Hd.
  cbn [getFullYear getMonth number_add]. unfold LocalTime.
  destruct (same_day _ _ (Day_within d _ (Htz (d * msPerDay)))) as [-> ->].
  reflexivity.
Qed.

Lemma month_no_leading_zero (m : Z) :
  1 <= m <= 12 -> forall r, ToString (Int m) <> String "0" r.
Proof.
  intros Hm r.
  assert (H : m = 1 \/ m = 2 \/ m = 3 \/ m = 4 \/ m = 5 \/ m = 6 \/ m = 7
              \/ m = 8 \/ m = 9 \/ m = 10 \/ m = 11 \/ m = 12) by lia.
  repeat (destruct H as [->|H]; [discriminate|]).
  subst m. discriminate.
Qed.

Lemma scenarioA_monthlyData (us : list User) :
  (forall x, 0 <= LocalTZA rt x < msPerDay) ->
  map (fun u => (role u, created_at u)) us
  = [("student", "2024-01-15"); ("lecturer", "2024-01-20");
     ("student", "2024-02-01")] ->
  monthlyDataOf rt us
  = [ ("2024-1", {| students := 1; lecturers := 1 |});
      ("2024-2", {| students := 1; lecturers := 0 |}) ].
Proof.
  intros Htz.
  destruct us as [|u1 [|u2 [|u3 [|u4 us]]]]; try discriminate.
  intros [= R1 C1 R2 C2 R3 C3].
  unfold monthlyDataOf. cbn [fold_left].
  rewrite !registerUser_define.
  rewrite (monthKeyOf_midnight u1 19737 Htz) by (rewrite C1; reflexivity).
  rewrite (monthKeyOf_midnight u2 19742 Htz) by (rewrite C2; reflexivity).
  rewrite (monthKeyOf_midnight u3 19754 Htz) by (rewrite C3; reflexivity).
  rewrite R1, R2, R3. reflexivity.
Qed.

End RegistrationLabels.

(** C4, as amended.  For a record whose timestamp parses, the bucket key is
    "{year}-{month}" of its local date, month 1-12 without leading zero (a
    timestamp that does not parse gives the key "NaN-NaN").  The chart
    labels are exactly the keys of the filtered records, each once, in
    ascending order of string comparison.  On Scenario A's three records
    with the window unset, in a runtime whose local time is not behind
    UTC: labels ["2024-1","2024-2"], students [1,1], lecturers [1,0]. *)
Theorem C4_month_keys_sorted_labels :
  forall (rt : Runtime) (st : State),
    let reg := getUserRegistrationData rt st in
    (forall (u : User) (t : Z),
        newDate rt (created_at u) = TimeValue t ->
        let y := YearFromTime (LocalTime rt t) in
        let m := MonthFromTime (LocalTime rt t) + 1 in
        monthKeyOf rt u = ToString (Int y) ++ "-" ++ ToString (Int m)
        /\ 1 <= m <= 12
        /\ forall r, ToString (Int m) <> String "0" r)
    /\ (forall u : User,
        newDate rt (created_at u) = InvalidDate -> monthKeyOf rt u = "NaN-NaN")
    /\ StronglySorted str_lt (labels (chartData reg))
    /\ (forall k, In k (labels (chartData reg)) <->
                  exists v, In v (tableData reg) /\ monthKeyOf rt v = k)
    /\ ((forall x, 0 <= LocalTZA rt x < msPerDay) ->
        map (fun u => (role u, created_at u)) (users st)
        = [("student", "2024-01-15"); ("lecturer", "2024-01-20");
           ("student", "2024-02-01")] ->
        startDate st = None \/ endDate st = None ->
        labels (chartData reg) = ["2024-1"; "2024-2"]
        /\ map data (datasets (chartData reg)) = [[1; 1]; [1; 0]]).
Proof.
  intros rt st reg.
  split; [|split; [|split; [|split]]].
  - intros u t Hu y m.
    assert (Hm : 1 <= m <= 12)
      by (pose proof (MonthFromTime_range (LocalTime rt t)); subst m; lia).
    split; [|split].
    + unfold monthKeyOf. rewrite Hu. reflexivity.
    + exact Hm.
    + now apply month_no_leading_zero.
  - apply monthKeyOf_invalid.
  - apply registration_labels_sorted.
  - apply registration_labels_In.
  - intros Htz Hus Hopen. subst reg.
    cbn [labels data datasets chartData getUserRegistrationData map].
    rewrite (filterUsers_unset rt st (users st) Hopen).
    rewrite (scenarioA_monthlyData rt (users st) Htz Hus).
    split; reflexivity.
Qed.

Lemma C4_month_keys_witness :
  let u := mkUser 1 "student" "2024-01-15" in
  let st := userState None None scenarioA in
  monthKeyOf utcRuntime u = "2024-1"
  /\ labels (chartData (getUserRegistrationData utcRuntime st))
     = ["2024-1"; "2024-2"]
  /\ map data (datasets (chartData (getUserRegistrationData utcRuntime st)))
     = [[1; 1]; [1; 0]].
Proof.
  intros u st.
  assert (Htz : forall x, 0 <= LocalTZA utcRuntime x < msPerDay)
    by (intros x; simpl; unfold msPerDay; lia).
  destruct (C4_month_keys_sorted_labels utcRuntime st)
    as (H1 & _ & _ & _ & H5).
  split.
  - exact (proj1 (H1 u 1705276800000 eq_refl)).
  - exact (H5 Htz eq_refl (or_introl eq_refl)).
Defined.

(** C4 as stated fails.  Five hours west of Greenwich the first of
    February, read as midnight UTC, is still the 31st of January: Scenario
    A has a single label.  And a timestamp that does not parse gives a key
    that is no year and month. *)
Lemma C4_scenarioA_west_of_greenwich :
  let st := userState None None scenarioA in
  labels (chartData (getUserRegistrationData westRuntime st)) = ["2024-1"]
  /\ labels (chartData (getUserRegistrationData westRuntime st))
     <> ["2024-1"; "2024-2"]
  /\ map data (datasets (chartData (getUserRegistrationData westRuntime st)))
     = [[2]; [1]]
  /\ monthKeyOf utcRuntime (mkUser 4 "student" "not a date") = "NaN-NaN".
Proof.
  intros st. split; [|split; [|split]]; try (vm_compute; reflexivity).
  intros H. vm_compute in H. discriminate.
Qed.

(* ===================================================================== *)
(** * More on the range filter *)
(* ===================================================================== *)

Lemma filter_filter_and {A : Type} (f g : A -> bool) (l : list A) :
  filter f (filter g l) = filter (fun x => g x && f x) l.
Proof.
  induction l as [|x l IH]; simpl; [reflexivity|].
  destruct (g x); simpl; [|assumption].
  destruct (f x); now rewrite IH.
Qed.

Lemma inRange_both (a1 b1 a2 b2 : Z) (d : Date) :
  inRange (TimeValue a2) (TimeValue b2) d
  && inRange (TimeValue a1) (TimeValue b1) d
  = inRange (TimeValue (Z.max a1 a2)) (TimeValue (Z.min b1 b2)) d.
Proof.
  unfold inRange, date_ge, date_le. destruct d as [t|]; [|reflexivity].
  destruct (Z.leb_spec a2 t), (Z.leb_spec t b2), (Z.leb_spec a1 t),
    (Z.leb_spec t b1), (Z.leb_spec (Z.max a1 a2) t),
    (Z.leb_spec t (Z.min b1 b2)); simpl; try reflexivity; lia.
Qed.

Lemma inRange_wider (a b a' b' : Z) (d : Date) :
  a' <= a -> b <= b' ->
  inRange (TimeValue a) (TimeValue b) d = true ->
  inRange (TimeValue a') (TimeValue b') d = true.
Proof.
  unfold inRange, date_ge, date_le. intros Ha Hb.
  destruct d as [t|]; [|discriminate].
  rewrite !andb_true_iff, !Z.leb_le. lia.
Qed.

(** X1.  Filtering by one window and then by another is filtering once by
    their intersection (the later start, the earlier end), so the order in
    which two windows are applied does not matter. *)
Theorem range_filters_intersect :
  forall (rt : Runtime) (st : State) (a1 b1 a2 b2 : Z)
         (us : list User) (l : list Announcement),
    filterUsersByDateRange rt (window st a1 b1)
      (filterUsersByDateRange rt (window st a2 b2) us)
    = filterUsersByDateRange rt (window st (Z.max a1 a2) (Z.min b1 b2)) us
    /\ filterAnnouncementsByDateRange rt (window st a1 b1)
         (filterAnnouncementsByDateRange rt (window st a2 b2) l)
       = filterAnnouncementsByDateRange rt
           (window st (Z.max a1 a2) (Z.min b1 b2)) l
    /\ filterUsersByDateRange rt (window st a1 b1)
         (filterUsersByDateRange rt (window st a2 b2) us)
       = filterUsersByDateRange rt (window st a2 b2)
           (filterUsersByDateRange rt (window st a1 b1) us).
Proof.
  intros rt st a1 b1 a2 b2 us l.
  unfold filterUsersByDateRange, filterAnnouncementsByDateRange.
  cbn [startDate endDate window setStartDate setEndDate].
  rewrite !filter_filter_and. repeat split.
  - apply filter_ext. intros u. apply inRange_both.
  - apply filter_ext. intros a. apply inRange_both.
  - apply filter_ext. intros u. apply andb_comm.
Qed.

(** X2.  Widening the window never loses a record: what passes between
    [a] and [b] passes between an earlier start and a later end. *)
Theorem wider_window_keeps_more :
  forall (rt : Runtime) (st : State) (a b a' b' : Z)
         (us : list User) (l : list Announcement),
    a' <= a -> b <= b' ->
    incl (filterUsersByDateRange rt (window st a b) us)
         (filterUsersByDateRange rt (window st a' b') us)
    /\ incl (filterAnnouncementsByDateRange rt (window st a b) l)
            (filterAnnouncementsByDateRange rt (window st a' b') l).
Proof.
  intros rt st a b a' b' us l Ha Hb.
  unfold filterUsersByDateRange, filterAnnouncementsByDateRange.
  cbn [startDate endDate window setStartDate setEndDate].
  split; intros x Hx; apply filter_In in Hx; apply filter_In;
    (split; [tauto|]); now apply (inRange_wider a b a' b').
Qed.

Lemma wider_window_keeps_more_witness :
  incl (filterUsersByDateRange utcRuntime
          (window (userState None None []) 1706745600000 1706745600000)
          scenarioA)
       (filterUsersByDateRange utcRuntime
          (window (userState None None []) 0 1800000000000) scenarioA).
Proof.
  apply (wider_window_keeps_more utcRuntime (userState None None [])
           1706745600000 1706745600000 0 1800000000000 scenarioA []); lia.
Defined.

(** X3.  The two filters are one and the same test on the timestamp: on
    users and announcements that carry the same timestamps, in the same
    order, they keep the same positions. *)
Theorem sibling_filters_agree :
  forall (rt : Runtime) (st : State) (us : list User) (l : list Announcement),
    map created_at us = map sent_at l ->
    map created_at (filterUsersByDateRange rt st us)
    = map sent_at (filterAnnouncementsByDateRange rt st l).
Proof.
  intros rt st us l.
  unfold filterUsersByDateRange, filterAnnouncementsByDateRange.
  destruct (startDate st) as [s|], (endDate st) as [e|]; try tauto.
  revert l. induction us as [|u us IH]; intros [|a l] H; try discriminate.
  - reflexivity.
  - injection H as Hhd Htl. simpl. rewrite Hhd.
    destruct (inRange s e (newDate rt (sent_at a))); simpl;
      rewrite (IH l Htl); [now rewrite Hhd | reflexivity].
Qed.

Lemma sibling_filters_agree_witness :
  let st := window (userState None None []) 1705276800000 1705363200000 in
  map created_at (filterUsersByDateRange utcRuntime st
                    [mkUser 1 "student" "2024-01-15";
                     mkUser 2 "lecturer" "2024-01-17"])
  = map sent_at (filterAnnouncementsByDateRange utcRuntime st
                   [mkAnnouncement 1 (Some "Alice") "2024-01-15";
                    mkAnnouncement 3 (Some "Alice") "2024-01-17"]).
Proof.
  intros st.
  apply (sibling_filters_agree utcRuntime st). reflexivity.
Defined.

Lemma distinct_keys_after_filter {R K : Type} (key : R -> K)
    (keep : R -> bool) (records : list R)
    (Hdistinct : NoDup (map key records)) :
  NoDup (map key (filter keep records)).
Proof.
  induction records as [|x records IH]; simpl; [constructor|].
  inversion Hdistinct as [|? ? Hnot Hnd]; subst.
  destruct (keep x); simpl; [|now apply IH].
  constructor; [|now apply IH].
  intros Hin. apply Hnot. apply in_map_iff in Hin.
  destruct Hin as [y [Hy Hin]]. apply filter_In in Hin.
  apply in_map_iff. exists y. tauto.
Qed.

(** X4.  The table of a report lists fetched records only; and if the
    fetched records of a kind have distinct ids (they are the React keys
    of the table rows), so have the rows of that kind's table. *)
Theorem table_rows_keep_distinct_ids :
  forall (rt : Runtime) (st : State),
    incl (tableData (getUserRegistrationData rt st)) (users st)
    /\ incl (tableData (getAnnouncementActivityData rt st)) (announcements st)
    /\ (NoDup (map user_id (users st)) ->
        NoDup (map user_id (tableData (getUserRegistrationData rt st))))
    /\ (NoDup (map announcement_id (announcements st)) ->
        NoDup (map announcement_id
                 (tableData (getAnnouncementActivityData rt st)))).
Proof.
  intros rt st.
  cbn [tableData getUserRegistrationData getAnnouncementActivityData].
  unfold filterUsersByDateRange, filterAnnouncementsByDateRange.
  destruct (startDate st), (endDate st);
    repeat split; try (intros H; assumption); try apply incl_refl;
    try (intros H; now apply distinct_keys_after_filter);
    intros x Hx; apply filter_In in Hx; tauto.
Qed.

Lemma table_rows_keep_distinct_ids_witness :
  let st := {| reportType := Some users_report;
               startDate := Some (TimeValue 1706745600000);
               endDate := Some (TimeValue 1800000000000);
               users := scenarioA; announcements := scenarioC |} in
  NoDup (map user_id (tableData (getUserRegistrationData utcRuntime st)))
  /\ NoDup (map announcement_id
              (tableData (getAnnouncementActivityData utcRuntime st))).
Proof.
  intros st.
  assert (Hu : NoDup (map user_id (users st))).
  { repeat constructor; simpl; intuition discriminate. }
  assert (Ha : NoDup (map announcement_id (announcements st))).
  { repeat constructor; simpl; intuition discriminate. }
  destruct (table_rows_keep_distinct_ids utcRuntime st)
    as (_ & _ & H1 & H2).
  split; [exact (H1 Hu) | exact (H2 Ha)].
Defined.

(* ===================================================================== *)
(** * More on the registration chart *)
(* ===================================================================== *)

Section RegistrationBuckets.

Variable rt : Runtime.

Lemma bucketAt_define (o : props MonthBucket) (k k' : string) (b : MonthBucket) :
  bucketAt (define o k b) k' = if String.eqb k k' then b else bucketAt o k'.
Proof.
  unfold bucketAt. destruct (String.eqb_spec k k') as [<-|Hne].
  - now rewrite own_define_same.
  - rewrite own_define_other by congruence. reflexivity.
Qed.

Lemma withRole_filter_cons (r : string) (p : User -> bool) (u : User)
    (l : list User) :
  withRole r (filter p (u :: l))
  = (if p u && String.eqb (role u) r then 1 else 0) + withRole r (filter p l).
Proof.
  cbn [filter]. destruct (p u); cbn [andb]; [apply withRole_cons | lia].
Qed.

(** The bucket of a month holds the records of that month, role by role. *)
Lemma monthlyData_bucket (k : string) (l : list User) :
  forall o : props MonthBucket,
    students (bucketAt (fold_left (registerUser rt) l o) k)
    = students (bucketAt o k) + withRole "student" (filter (inMonth rt k) l)
    /\ lecturers (bucketAt (fold_left (registerUser rt) l o) k)
       = lecturers (bucketAt o k)
         + withRole "lecturer" (filter (inMonth rt k) l).
Proof.
  induction l as [|u l IH]; intros o.
  - unfold withRole. simpl. lia.
  - cbn [fold_left]. destruct (IH (registerUser rt o u)) as [H1 H2].
    rewrite H1, H2, !withRole_filter_cons, registerUser_define, bucketAt_define.
    unfold inMonth, countRole.
    destruct (String.eqb_spec (monthKeyOf rt u) k) as [Hk|Hk]; cbn [andb];
      [rewrite Hk | lia].
    destruct (String.eqb_spec (role u) "student") as [E|E];
      destruct (String.eqb_spec (role u) "lecturer") as [E'|E'];
      try (rewrite E in E'; discriminate);
      cbn [students lecturers]; lia.
Qed.

Lemma withRole_perm (r : string) (l l' : list User) :
  Permutation l l' -> withRole r l = withRole r l'.
Proof.
  intros H. unfold withRole. f_equal.
  induction H; simpl.
  - reflexivity.
  - destruct (String.eqb (role x) r); simpl; congruence.
  - destruct (String.eqb (role x) r), (String.eqb (role y) r); reflexivity.
  - congruence.
Qed.

Lemma filter_perm {A : Type} (p : A -> bool) (l l' : list A) :
  Permutation l l' -> Permutation (filter p l) (filter p l').
Proof.
  induction 1; simpl.
  - constructor.
  - destruct (p x); [now constructor | assumption].
  - destruct (p x), (p y); try reflexivity. apply perm_swap.
  - etransitivity; eassumption.
Qed.

Lemma str_lt_irreflexive (a : string) : ~ str_lt a a.
Proof. apply String_as_OT.lt_strorder. Qed.

Lemma sorted_unique (l l' : list string) :
  StronglySorted str_lt l -> StronglySorted str_lt l' ->
  (forall k, In k l <-> In k l') -> l = l'.
Proof.
  intros Hl. revert l'.
  induction Hl as [|a l Hl IH Ha]; intros l' Hl' Heq.
  - destruct l' as [|b l']; [reflexivity|].
    destruct (proj2 (Heq b) (or_introl eq_refl)).
  - destruct l' as [|b l'].
    + destruct (proj1 (Heq a) (or_introl eq_refl)).
    + inversion Hl' as [|? ? Hl'' Hb]; subst.
      rewrite Forall_forall in Ha, Hb.
      assert (Hab : a = b).
      { destruct (proj1 (Heq a) (or_introl eq_refl)) as [E|E]; [auto|].
        destruct (proj2 (Heq b) (or_introl eq_refl)) as [E'|E']; [auto|].
        exfalso. apply (str_lt_irreflexive a).
        apply str_lt_trans with b; auto. }
      subst b. f_equal. apply IH; [assumption|].
      intros k. split; intros Hk.
      * destruct (proj1 (Heq k) (or_intror Hk)) as [E|E]; [|assumption].
        subst k. exfalso. apply (str_lt_irreflexive a). now apply Ha.
      * destruct (proj2 (Heq k) (or_intror Hk)) as [E|E]; [|assumption].
        subst k. exfalso. apply (str_lt_irreflexive a). now apply Hb.
Qed.

Lemma sorted_before (l : list string) (a b : string) :
  StronglySorted str_lt l -> In a l -> In b l -> str_lt a b ->
  exists l1 l2 l3, l = (l1 ++ a :: l2 ++ b :: l3)%list.
Proof.
  intros Hs. induction Hs as [|x l Hs IH Hx]; intros Ha Hb Hab; [destruct Ha|].
  rewrite Forall_forall in Hx.
  destruct Ha as [->|Ha].
  - destruct Hb as [->|Hb].
    + exfalso. now apply (str_lt_irreflexive b).
    + apply in_split in Hb. destruct Hb as (l2 & l3 & ->).
      now exists [], l2, l3.
  - destruct Hb as [->|Hb].
    + exfalso. apply (str_lt_irreflexive a).
      apply str_lt_trans with b; auto.
    + destruct (IH Ha Hb Hab) as (l1 & l2 & l3 & ->).
      now exists (x :: l1), l2, l3.
Qed.

Lemma compare_prefix (p a b : string) :
  String_as_OT.compare (p ++ a) (p ++ b) = String_as_OT.compare a b.
Proof.
  induction p as [|c p IH]; [reflexivity|].
  cbn [append String_as_OT.compare].
  unfold Ascii_as_OT.compare. now rewrite N.compare_refl.
Qed.

End RegistrationBuckets.

Lemma filterUsers_perm (rt : Runtime) (st : State) (us us' : list User) :
  Permutation us us' ->
  Permutation (filterUsersByDateRange rt st us)
              (filterUsersByDateRange rt st us').
Proof.
  intros H. unfold filterUsersByDateRange.
  destruct (startDate st), (endDate st); try assumption.
  now apply filter_perm.
Qed.

Lemma registration_series (rt : Runtime) (st : State) :
  let reg := getUserRegistrationData rt st in
  map data (datasets (chartData reg))
  = [ map (fun k => withRole "student" (filter (inMonth rt k) (tableData reg)))
        (labels (chartData reg));
      map (fun k => withRole "lecturer" (filter (inMonth rt k) (tableData reg)))
        (labels (chartData reg)) ].
Proof.
  cbn [labels data datasets chartData tableData getUserRegistrationData map].
  f_equal; [|f_equal]; apply map_ext; intros k; unfold monthlyDataOf.
  - now rewrite (proj1 (monthlyData_bucket rt k _ [])).
  - now rewrite (proj2 (monthlyData_bucket rt k _ [])).
Qed.

(** X5.  Each point of the registration chart is exact: under every label
    the "Students" series holds the number of filtered records of that
    month whose role is "student", and the "Lecturers" series the number
    of those whose role is "lecturer". *)
Theorem registration_counts_per_month :
  forall (rt : Runtime) (st : State),
    let reg := getUserRegistrationData rt st in
    map data (datasets (chartData reg))
    = [ map (fun k => withRole "student"
                        (filter (inMonth rt k) (tableData reg)))
          (labels (chartData reg));
        map (fun k => withRole "lecturer"
                        (filter (inMonth rt k) (tableData reg)))
          (labels (chartData reg)) ].
Proof. intros rt st. apply registration_series. Qed.

(* ===================================================================== *)
(** * Records whose timestamp does not parse *)
(* ===================================================================== *)

Lemma filter_implied {A : Type} (f g : A -> bool) (l : list A) :
  (forall x, f x = true -> g x = true) -> filter f (filter g l) = filter f l.
Proof.
  intros H. induction l as [|x l IH]; simpl; [reflexivity|].
  destruct (g x) eqn:Eg; simpl.
  - now rewrite IH.
  - destruct (f x) eqn:Ef; [|assumption].
    apply H in Ef. congruence.
Qed.

Lemma withRole_member (r : string) (u : User) (l : list User) :
  In u l -> role u = r -> 1 <= withRole r l.
Proof.
  intros Hin Hr. unfold withRole.
  assert (H : In u (filter (fun v => String.eqb (role v) r) l))
    by (apply filter_In; split; [assumption | now apply String.eqb_eq]).
  destruct (filter (fun v => String.eqb (role v) r) l); [destruct H|].
  simpl List.length. lia.
Qed.

Lemma withRole_without (r : string) (p : User -> bool) (u : User)
    (l1 l2 : list User) :
  String.eqb (role u) r = false ->
  withRole r (filter p (l1 ++ u :: l2)) = withRole r (filter p (l1 ++ l2)).
Proof.
  intros Hr. unfold withRole. rewrite !filter_app. cbn [filter].
  destruct (p u); [|reflexivity].
  rewrite ?filter_app. cbn [filter]. now rewrite Hr.
Qed.

(** C3, as amended.  A record whose timestamp does not parse is treated
    according to the window.  With a bound unset it passes the filter: its
    bucket key is "NaN-NaN", which is a chart label; at the position of
    that label each series holds the number of filtered records with that
    key and the series' role, so the record is counted there (a value of
    at least 1) in the Students series if its role is "student" and in
    the Lecturers series if its role is "lecturer", and adds nothing to
    either count otherwise; and it appears in the table rows, its date
    cell reading "N/A" when the timestamp string is empty and "Invalid
    Date" otherwise.  With both bounds set the range filter removes it: it
    is in no table row, and the report is the one of the same records
    without the unparseable ones. *)
Theorem C3_unparseable_timestamp :
  forall (rt : Runtime) (st : State) (u : User),
    In u (users st) ->
    newDate rt (created_at u) = InvalidDate ->
    let reg := getUserRegistrationData rt st in
    let atNaN := filter (inMonth rt "NaN-NaN") (tableData reg) in
    (startDate st = None \/ endDate st = None ->
     monthKeyOf rt u = "NaN-NaN"
     /\ In u atNaN
     /\ (exists i,
            nth_error (labels (chartData reg)) i = Some "NaN-NaN"
            /\ map (fun series => nth_error series i)
                 (map data (datasets (chartData reg)))
               = [Some (withRole "student" atNaN);
                  Some (withRole "lecturer" atNaN)])
     /\ (role u = "student" -> 1 <= withRole "student" atNaN)
     /\ (role u = "lecturer" -> 1 <= withRole "lecturer" atNaN)
     /\ (otherRole u = true ->
         forall l1 l2, tableData reg = (l1 ++ u :: l2)%list ->
           withRole "student" atNaN
           = withRole "student" (filter (inMonth rt "NaN-NaN") (l1 ++ l2))
           /\ withRole "lecturer" atNaN
              = withRole "lecturer" (filter (inMonth rt "NaN-NaN") (l1 ++ l2)))
     /\ In u (tableData reg)
     /\ In [name u; role u;
            if String.eqb (created_at u) "" then "N/A" else "Invalid Date"]
          (map (userRow rt) (tableData reg)))
    /\ (forall s e, startDate st = Some s -> endDate st = Some e ->
        ~ In u (tableData reg)
        /\ reg = getUserRegistrationData rt
                   (setUsers st (filter (validTimestamp rt) (users st)))).
Proof.
  intros rt st u Hin Hbad reg atNaN. split.
  - intros Hopen.
    assert (Hu : In u (tableData reg))
      by (subst reg; cbn [tableData getUserRegistrationData];
          now rewrite filterUsers_unset).
    assert (Hkey : monthKeyOf rt u = "NaN-NaN")
      by now apply monthKeyOf_invalid.
    assert (Hat : In u atNaN).
    { subst atNaN. apply filter_In. split; [exact Hu|].
      unfold inMonth. rewrite Hkey. reflexivity. }
    split; [exact Hkey | split; [exact Hat|]].
    split; [|split; [|split; [|split; [|split; [exact Hu|]]]]].
    + assert (Hlab : In "NaN-NaN" (labels (chartData reg)))
        by (apply registration_labels_In; exists u; auto).
      apply In_nth_error in Hlab. destruct Hlab as [i Hi].
      exists i. split; [exact Hi|].
      subst reg atNaN. rewrite registration_series.
      cbn [map]. rewrite !nth_error_map, Hi. reflexivity.
    + intros Hr. now apply (withRole_member "student" u).
    + intros Hr. now apply (withRole_member "lecturer" u).
    + intros Hother l1 l2 Hsplit. subst atNaN. rewrite Hsplit.
      unfold otherRole in Hother. apply andb_true_iff in Hother.
      destruct Hother as [H1 H2].
      apply negb_true_iff in H1. apply negb_true_iff in H2.
      split; now apply withRole_without.
    + apply in_map_iff. exists u. split; [|exact Hu].
      unfold userRow, dateCell. rewrite Hbad. reflexivity.
  - intros s e Hs He. split.
    + subst reg. cbn [tableData getUserRegistrationData].
      rewrite (filterUsers_set rt st s e) by assumption.
      intros H. apply filter_In in H. destruct H as [_ H].
      rewrite Hbad in H. discriminate.
    + subst reg. unfold getUserRegistrationData.
      rewrite (filterUsers_set rt st s e) by assumption.
      rewrite (filterUsers_set rt (setUsers st _) s e) by assumption.
      cbn [users setUsers].
      rewrite filter_implied; [reflexivity|].
      intros x. unfold validTimestamp.
      destruct (newDate rt (created_at x)); [reflexivity | discriminate].
Qed.

Lemma C3_unparseable_timestamp_witness :
  let bad := mkUser 4 "student" "not a date" in
  let open := userState (Some (TimeValue 0)) None (bad :: scenarioA) in
  let both := userState (Some (TimeValue 0)) (Some (TimeValue 1706745600000))
                (bad :: scenarioA) in
  (In "NaN-NaN" (labels (chartData (getUserRegistrationData utcRuntime open)))
   /\ 1 <= withRole "student"
             (filter (inMonth utcRuntime "NaN-NaN")
                (tableData (getUserRegistrationData utcRuntime open)))
   /\ In ["user"; "student"; "Invalid Date"]
        (map (userRow utcRuntime)
           (tableData (getUserRegistrationData utcRuntime open))))
  /\ ~ In bad (tableData (getUserRegistrationData utcRuntime both)).
Proof.
  intros bad open both. split.
  - destruct (proj1 (C3_unparseable_timestamp utcRuntime open bad
                       (or_introl eq_refl) eq_refl)
                (or_intror eq_refl))
      as (_ & _ & (i & Hi & _) & Hs & _ & _ & _ & Hrow).
    split; [exact (nth_error_In _ _ Hi) | split; [exact (Hs eq_refl) | exact Hrow]].
  - exact (proj1 (proj2 (C3_unparseable_timestamp utcRuntime both bad
                           (or_introl eq_refl) eq_refl)
                    (TimeValue 0) (TimeValue 1706745600000)
                    eq_refl eq_refl)).
Defined.

(** C3 as stated fails on either side.  With the window open on one side,
    the unparseable record gets a bucket of its own and is counted there;
    with both bounds set it is in no table row. *)
Lemma C3_unparseable_is_bucketed_or_dropped :
  let bad := mkUser 4 "student" "not a date" in
  let open := userState (Some (TimeValue 0)) None [bad] in
  let both := userState (Some (TimeValue 0)) (Some (TimeValue 1706745600000))
                [bad] in
  labels (chartData (getUserRegistrationData utcRuntime open)) = ["NaN-NaN"]
  /\ map data (datasets (chartData (getUserRegistrationData utcRuntime open)))
     = [[1]; [0]]
  /\ map (userRow utcRuntime)
       (tableData (getUserRegistrationData utcRuntime both)) = [].
Proof. repeat split. Qed.


Lemma withRole_none (r : string) (l : list User) :
  Forall (fun u => String.eqb (role u) r = false) l -> withRole r l = 0.
Proof.
  intros H. unfold withRole. rewrite filter_none; [reflexivity|].
  rewrite Forall_forall in H. exact H.
Qed.

(** X6.  A record whose role is neither "student" nor "lecturer" still
    opens the bucket of its month: when no filtered record has one of the
    two roles, the chart keeps one label for each month met and both
    series are zero throughout. *)
Theorem other_roles_give_empty_months :
  forall (rt : Runtime) (st : State),
    let reg := getUserRegistrationData rt st in
    Forall (fun u => otherRole u = true) (tableData reg) ->
    (forall u, In u (tableData reg) ->
               In (monthKeyOf rt u) (labels (chartData reg)))
    /\ map data (datasets (chartData reg))
       = [ map (fun _ => 0) (labels (chartData reg));
           map (fun _ => 0) (labels (chartData reg)) ].
Proof.
  intros rt st reg Hother. split.
  - intros u Hu. apply registration_labels_In. now exists u.
  - subst reg. rewrite registration_series.
    assert (Hzero : forall r k,
               r = "student" \/ r = "lecturer" ->
               withRole r (filter (inMonth rt k)
                             (tableData (getUserRegistrationData rt st))) = 0).
    { intros r k Hr. apply withRole_none.
      apply Forall_forall. intros u Hu. apply filter_In in Hu.
      rewrite Forall_forall in Hother.
      pose proof (Hother u (proj1 Hu)) as Ho. unfold otherRole in Ho.
      apply andb_true_iff in Ho. destruct Ho as [H1 H2].
      apply negb_true_iff in H1. apply negb_true_iff in H2.
      destruct Hr as [->| ->]; assumption. }
    f_equal; [|f_equal]; apply map_ext; intros k; apply Hzero; auto.
Qed.

Lemma other_roles_give_empty_months_witness :
  let st := userState None None
              [ mkUser 1 "admin" "2024-01-15"; mkUser 2 "Student" "2024-03-02" ] in
  In "2024-3" (labels (chartData (getUserRegistrationData utcRuntime st)))
  /\ map data (datasets (chartData (getUserRegistrationData utcRuntime st)))
     = [ [0; 0]; [0; 0] ].
Proof.
  intros st.
  assert (H : Forall (fun u => otherRole u = true)
                (tableData (getUserRegistrationData utcRuntime st)))
    by (repeat constructor).
  destruct (other_roles_give_empty_months utcRuntime st H) as [H1 H2].
  split.
  - apply (H1 (mkUser 2 "Student" "2024-03-02")). simpl. auto.
  - exact H2.
Defined.

(** X7.  The registration chart does not depend on the order in which the
    records were fetched: any rearrangement of the users gives the same
    labels and the same two series. *)
Theorem registration_chart_ignores_order :
  forall (rt : Runtime) (st : State) (us : list User),
    Permutation (users st) us ->
    chartData (getUserRegistrationData rt (setUsers st us))
    = chartData (getUserRegistrationData rt st).
Proof.
  intros rt st us Hperm.
  assert (Hf : Permutation (tableData (getUserRegistrationData rt st))
                 (tableData (getUserRegistrationData rt (setUsers st us))))
    by (exact (filterUsers_perm rt st _ _ Hperm)).
  assert (Hl : labels (chartData (getUserRegistrationData rt (setUsers st us)))
               = labels (chartData (getUserRegistrationData rt st))).
  { apply sorted_unique; try apply registration_labels_sorted.
    intros k. rewrite !registration_labels_In.
    split; intros [u [Hu Hk]]; exists u; split; try assumption.
    - now apply (Permutation_in _ (Permutation_sym Hf)).
    - now apply (Permutation_in _ Hf). }
  assert (Hd : map data (datasets (chartData
                                     (getUserRegistrationData rt (setUsers st us))))
               = map data (datasets (chartData (getUserRegistrationData rt st)))).
  { rewrite !registration_series, Hl.
    f_equal; [|f_equal]; apply map_ext; intros k;
      apply withRole_perm, filter_perm, Permutation_sym, Hf. }
  cbn [labels data datasets chartData getUserRegistrationData map
       users setUsers] in Hl, Hd |- *.
  injection Hd as Hs Hle. rewrite Hs, Hle, Hl. reflexivity.
Qed.

Lemma registration_chart_ignores_order_witness :
  chartData (getUserRegistrationData utcRuntime
               (setUsers (userState None None scenarioA) (rev scenarioA)))
  = chartData (getUserRegistrationData utcRuntime
                 (userState None None scenarioA)).
Proof.
  apply (registration_chart_ignores_order utcRuntime
           (userState None None scenarioA) (rev scenarioA)).
  apply Permutation_rev.
Defined.

Lemma late_month_sorts_first (mu mv : Z) :
  10 <= mu <= 12 -> 2 <= mv <= 9 ->
  str_lt (ToString (Int mu)) (ToString (Int mv)).
Proof.
  intros Hu Hv.
  assert (Eu : mu = 10 \/ mu = 11 \/ mu = 12) by lia.
  assert (Ev : mv = 2 \/ mv = 3 \/ mv = 4 \/ mv = 5 \/ mv = 6 \/ mv = 7
               \/ mv = 8 \/ mv = 9) by lia.
  destruct Eu as [->|[->| ->]];
    repeat (destruct Ev as [->|Ev]; [reflexivity|]); subst mv; reflexivity.
Qed.

(** X8.  The labels are in the order of string comparison, not of the
    calendar: within one year the label of a record of October, November
    or December comes before the label of a record of February to
    September. *)
Theorem late_months_come_before_early_ones :
  forall (rt : Runtime) (st : State) (u v : User) (tu tv : Z),
    let reg := getUserRegistrationData rt st in
    In u (tableData reg) -> In v (tableData reg) ->
    newDate rt (created_at u) = TimeValue tu ->
    newDate rt (created_at v) = TimeValue tv ->
    YearFromTime (LocalTime rt tu) = YearFromTime (LocalTime rt tv) ->
    10 <= MonthFromTime (LocalTime rt tu) + 1 ->
    2 <= MonthFromTime (LocalTime rt tv) + 1 <= 9 ->
    exists l1 l2 l3,
      labels (chartData reg)
      = (l1 ++ monthKeyOf rt u :: l2 ++ monthKeyOf rt v :: l3)%list.
Proof.
  intros rt st u v tu tv reg Hu Hv Htu Htv Hy Hmu Hmv.
  apply sorted_before.
  - apply registration_labels_sorted.
  - apply registration_labels_In. now exists u.
  - apply registration_labels_In. now exists v.
  - unfold monthKeyOf. rewrite Htu, Htv.
    cbn [getFullYear getMonth number_add]. rewrite Hy.
    unfold str_lt. rewrite compare_prefix.
    rewrite (compare_prefix "-").
    apply late_month_sorts_first; [|assumption].
    pose proof (MonthFromTime_range (LocalTime rt tu)). lia.
Qed.

Lemma late_months_come_before_early_ones_witness :
  exists l1 l2 l3,
    labels (chartData (getUserRegistrationData utcRuntime
                         (userState None None (scenarioA ++ [october]))))
    = (l1 ++ "2024-10" :: l2 ++ "2024-2" :: l3)%list.
Proof.
  apply (late_months_come_before_early_ones utcRuntime
           (userState None None (scenarioA ++ [october]))
           october (mkUser 3 "student" "2024-02-01")
           1728086400000 1706745600000).
  - simpl. auto.
  - simpl. auto.
  - reflexivity.
  - reflexivity.
  - reflexivity.
  - vm_compute. discriminate.
  - vm_compute. split; discriminate.
Defined.

(* ===================================================================== *)
(** * More on the activity chart *)
(* ===================================================================== *)

Lemma senderOf_not_empty (a : Announcement) : senderOf a <> "".
Proof.
  unfold senderOf, opt_or, str_or.
  destruct (sender_name a) as [[|c s]|]; discriminate.
Qed.

Lemma occurrences_positive (l : list string) (k : string) :
  In k l -> 1 <= occurrences l k <= Z.of_nat (List.length l).
Proof.
  intros H. unfold occurrences.
  pose proof (proj1 (count_occ_In string_dec l k) H).
  pose proof (count_occ_bound string_dec k l). lia.
Qed.

Lemma activity_chart_of_counts (rt : Runtime) (st : State) :
  let act := getAnnouncementActivityData rt st in
  let senders := map senderOf (tableData act) in
  Forall (fun k => inherited k = false) senders ->
  (forall k, In k (labels (chartData act)) <-> In k senders)
  /\ map data (datasets (chartData act))
     = [map (fun k => VNum (occurrences senders k)) (labels (chartData act))].
Proof.
  intros act senders Hplain.
  set (filtered := filterAnnouncementsByDateRange rt st (announcements st)).
  assert (Hinh : Forall (fun a => inherited (senderOf a) = false) filtered).
  { apply Forall_forall. intros a Ha.
    rewrite Forall_forall in Hplain. apply Hplain.
    exact (in_map senderOf _ _ Ha). }
  assert (Hkeys : map fst (senderDataOf rt filtered) = firstSeen senders)
    by (exact (senderData_keys rt filtered Hinh [] (Forall_nil _))).
  assert (Hlab : labels (chartData act)
                 = Object_keys (senderDataOf rt filtered)) by reflexivity.
  assert (Hval : map data (datasets (chartData act))
                 = [Object_values (senderDataOf rt filtered)]) by reflexivity.
  split.
  - intros k. rewrite Hlab, <- (firstSeen_In senders k), <- Hkeys.
    split; apply Permutation_in;
      [apply Object_keys_perm | apply Permutation_sym, Object_keys_perm].
  - rewrite Hval, Hlab. unfold Object_values, Object_keys.
    f_equal. rewrite map_map. apply map_ext_in.
    intros [k v] Hin. cbn [fst snd].
    apply (Permutation_in _ (ownEntries_perm _)) in Hin.
    assert (Hnd : NoDup (map fst (senderDataOf rt filtered)))
      by (rewrite Hkeys; apply firstSeen_NoDup).
    pose proof (In_own _ _ _ Hnd Hin) as Hown.
    unfold senderDataOf in Hown.
    rewrite (senderData_own rt filtered Hinh [] [] (Forall_nil _)) in Hown
      by reflexivity.
    change ([] ++ map senderOf filtered)%list with senders in Hown.
    unfold counted in Hown.
    destruct (occurrences senders k =? 0); [discriminate|].
    now injection Hown.
Qed.

(** X9.  Table and chart of the activity report agree.  As long as no
    actor name is the name of a property of [Object.prototype], the
    Sender cell of every table row is a label of the chart, every label
    is the Sender cell of some row, no label is empty, and every bar is a
    count between 1 and the number of rows. *)
Theorem activity_table_and_chart_agree :
  forall (rt : Runtime) (st : State),
    let act := getAnnouncementActivityData rt st in
    let rows := map (announcementRow rt) (tableData act) in
    Forall (fun a => inherited (senderOf a) = false) (tableData act) ->
    (forall k, In k (labels (chartData act)) <->
               exists row, In row rows /\ nth 1 row "" = k)
    /\ ~ In "" (labels (chartData act))
    /\ (forall vs, In vs (map data (datasets (chartData act))) ->
        List.length vs = List.length (labels (chartData act))
        /\ Forall (fun v => exists n, v = VNum n
                                      /\ 1 <= n <= Z.of_nat (List.length rows))
                  vs).
Proof.
  intros rt st act rows Hplain.
  assert (Hs : Forall (fun k => inherited k = false)
                 (map senderOf (tableData act)))
    by (now apply Forall_map).
  destruct (activity_chart_of_counts rt st Hs) as [Hlab Hdata].
  fold act in Hlab, Hdata.
  assert (Hrow : forall k, In k (map senderOf (tableData act)) <->
                           exists row, In row rows /\ nth 1 row "" = k).
  { intros k. subst rows. rewrite in_map_iff. split.
    - intros [a [<- Ha]]. exists (announcementRow rt a).
      split; [now apply in_map | reflexivity].
    - intros [row [Hr <-]]. apply in_map_iff in Hr.
      destruct Hr as [a [<- Ha]]. now exists a. }
  split; [|split].
  - intros k. now rewrite Hlab.
  - rewrite Hlab, in_map_iff. intros [a [Ha _]].
    now apply (senderOf_not_empty a).
  - intros vs Hvs. rewrite Hdata in Hvs. destruct Hvs as [<-|[]].
    split; [apply length_map|].
    apply Forall_forall. intros v Hv. apply in_map_iff in Hv.
    destruct Hv as [k [<- Hk]]. eexists. split; [reflexivity|].
    subst rows. rewrite length_map.
    rewrite <- (length_map senderOf). apply occurrences_positive.
    now apply Hlab.
Qed.

Lemma activity_table_and_chart_agree_witness :
  let st := announcementState None None
              (mkAnnouncement 4 None "2024-01-10" :: scenarioC) in
  In "Unknown" (labels (chartData (getAnnouncementActivityData utcRuntime st)))
  /\ ~ In "" (labels (chartData (getAnnouncementActivityData utcRuntime st))).
Proof.
  intros st.
  assert (H : Forall (fun a => inherited (senderOf a) = false)
                (tableData (getAnnouncementActivityData utcRuntime st)))
    by (repeat constructor).
  destruct (activity_table_and_chart_agree utcRuntime st H) as (H1 & H2 & _).
  split; [|exact H2].
  apply H1. exists (announcementRow utcRuntime (mkAnnouncement 4 None "2024-01-10")).
  split; [simpl; auto | reflexivity].
Defined.

(* ===================================================================== *)
(** * Fetching and the life of the page *)
(* ===================================================================== *)

(** X11.  A fetch either replaces data silently or shows exactly one alert
    and changes nothing.  Without a token (missing or empty) no request is
    looked at: the state stays as it is and the alert is the one about
    authentication, whatever the endpoints would have answered. *)
Theorem alert_means_nothing_changed :
  forall (net : Network) (st : State),
    let result := settle (reportTypeEffect net st) st in
    (snd result = []
     \/ (fst result = st
         /\ (snd result = [authAlert] \/ snd result = [fetchAlert])))
    /\ (reportType st <> None ->
        token net = None \/ token net = Some "" ->
        result = (st, [authAlert]))
    /\ (reportType st = None -> result = (st, [])).
Proof.
  intros net st result. subst result. unfold reportTypeEffect, fetchData.
  split; [|split].
  - destruct (reportType st) as [[|]|]; [| |now left];
      destruct (token net) as [t|]; try (right; simpl; auto; fail);
      destruct (String.eqb t ""); try (right; simpl; auto; fail).
    + destruct (usersReply net); [now left | right; simpl; auto].
    + destruct (announcementsReply net); [now left | right; simpl; auto].
  - intros Hr [Ht|Ht]; rewrite Ht;
      destruct (reportType st); try reflexivity; congruence.
  - intros ->. reflexivity.
Qed.

Lemma alert_means_nothing_changed_witness :
  let net := {| token := Some ""; usersReply := Some scenarioA;
                announcementsReply := Some scenarioC |} in
  let st := userState None None [] in
  settle (reportTypeEffect net st) st = (st, [authAlert]).
Proof.
  intros net st.
  apply (proj1 (proj2 (alert_means_nothing_changed net st))).
  - discriminate.
  - right. reflexivity.
Defined.

(** X12.  A fetch touches nothing but the list of the kind it was started
    for, on whatever state it comes back to: the selection and the window
    are never changed, and a reply for users that arrives after the
    selection has moved to announcements leaves the table, the labels and
    the counts of the announcement report as they are (its bar colours
    are drawn anew at every rendering, and are not compared); the other
    way round, the registration report is left as it is. *)
Theorem late_reply_keeps_other_report :
  forall (rt : Runtime) (net : Network) (st later : State),
    let after := fst (settle (reportTypeEffect net st) later) in
    reportType after = reportType later
    /\ startDate after = startDate later
    /\ endDate after = endDate later
    /\ (reportType st <> Some announcements_report ->
        announcements after = announcements later
        /\ tableData (getAnnouncementActivityData rt after)
           = tableData (getAnnouncementActivityData rt later)
        /\ seriesOf (chartData (getAnnouncementActivityData rt after))
           = seriesOf (chartData (getAnnouncementActivityData rt later)))
    /\ (reportType st <> Some users_report ->
        users after = users later
        /\ getUserRegistrationData rt after = getUserRegistrationData rt later).
Proof.
  intros rt net st later after. subst after.
  unfold reportTypeEffect, fetchData.
  destruct (reportType st) as [[|]|]; try (repeat split; congruence);
    destruct (token net) as [t|]; try (repeat split; fail);
    destruct (String.eqb t ""); try (repeat split; fail).
  - destruct (usersReply net); repeat split; congruence.
  - destruct (announcementsReply net); repeat split; congruence.
Qed.

Lemma late_reply_keeps_other_report_witness :
  let net := {| token := Some "t"; usersReply := Some scenarioA;
                announcementsReply := None |} in
  let st := userState None None [] in
  let later := announcementState None None scenarioC in
  users (fst (settle (reportTypeEffect net st) later)) = scenarioA
  /\ seriesOf (chartData (getAnnouncementActivityData utcRuntime
                            (fst (settle (reportTypeEffect net st) later))))
     = (["Alice"; "Bob"], [("Announcements", [VNum 2; VNum 1])]).
Proof.
  intros net st later. split; [reflexivity|].
  destruct (late_reply_keeps_other_report utcRuntime net st later)
    as (_ & _ & _ & H & _).
  destruct H as (_ & _ & H); [discriminate|].
  exact H.
Defined.

(** X13.  After a fetch of users that succeeds, the table of the report is
    the reply filtered by the window, whatever the page held before; and
    after one that fails, it is what it was. *)
Theorem report_follows_the_reply :
  forall (rt : Runtime) (net : Network) (st : State) (t : string),
    reportType st = Some users_report ->
    token net = Some t -> t <> "" ->
    let after := fst (settle (reportTypeEffect net st) st) in
    tableData (getUserRegistrationData rt after)
    = match usersReply net with
      | Some l => filterUsersByDateRange rt st l
      | None => tableData (getUserRegistrationData rt st)
      end.
Proof.
  intros rt net st t Hr Ht Hne after. subst after.
  unfold reportTypeEffect, fetchData. rewrite Hr, Ht.
  apply String.eqb_neq in Hne. rewrite Hne.
  destruct (usersReply net); reflexivity.
Qed.

Lemma report_follows_the_reply_witness :
  let net := {| token := Some "t"; usersReply := Some scenarioA;
                announcementsReply := None |} in
  let st := window (userState None None [mkUser 9 "student" "2020-01-01"])
              1706745600000 1800000000000 in
  tableData (getUserRegistrationData utcRuntime
               (fst (settle (reportTypeEffect net st) st)))
  = [mkUser 3 "student" "2024-02-01"].
Proof.
  intros net st.
  apply (report_follows_the_reply utcRuntime net st "t");
    [reflexivity | reflexivity | discriminate].
Defined.

Lemma step_reportType (st : State) (ev : Event) :
  reportType (step st ev)
  = match ev with
    | SelectReport r => Some r
    | _ => reportType st
    end.
Proof. destruct ev as [r|d|d|[l|l|m|]]; reflexivity. Qed.

(** X14.  The page leaves its idle state at the first selection of a
    report and never returns to it: after any sequence of selections, date
    picks and fetch completions, the report kind is unset exactly when it
    was unset at the start and nothing was selected since.  So once a
    report has been selected the "Download PDF" button stays. *)
Theorem selection_is_never_undone :
  forall (rt : Runtime) (st : State) (evs : list Event),
    (reportType (run st evs) = None <->
     reportType st = None
     /\ Forall (fun ev => match ev with
                          | SelectReport _ => False
                          | _ => True
                          end) evs)
    /\ (reportType st <> None ->
        downloadButton (render rt (run st evs))
        = Some (downloadPDF rt (run st evs))).
Proof.
  intros rt st evs.
  assert (H : reportType (run st evs) = None <->
              reportType st = None
              /\ Forall (fun ev => match ev with
                                   | SelectReport _ => False
                                   | _ => True
                                   end) evs).
  { unfold run. revert st.
    induction evs as [|ev evs IH]; intros st; cbn [fold_left].
    - split; [intros H; split; [assumption | constructor] | tauto].
    - rewrite IH, step_reportType. split.
      + intros [H1 H2]. destruct ev; try discriminate;
          (split; [assumption | constructor; [exact I | assumption]]).
      + intros [H1 H2]. inversion H2 as [|? ? Hev Hevs]; subst.
        destruct ev; [destruct Hev | | |]; auto. }
  split; [exact H|].
  intros Hset. unfold render. cbn [downloadButton].
  destruct (reportType (run st evs)); [reflexivity|].
  destruct (proj1 H eq_refl) as [Hidle _]. contradiction.
Qed.

Lemma selection_is_never_undone_witness :
  downloadButton
    (render utcRuntime
       (run (userState None None [])
          [PickStart None; Settled (GotAnnouncements scenarioC);
           PickEnd None; Settled (Alerted fetchAlert)]))
  <> None.
Proof.
  rewrite (proj2 (selection_is_never_undone utcRuntime
                    (userState None None [])
                    [PickStart None; Settled (GotAnnouncements scenarioC);
                     PickEnd None; Settled (Alerted fetchAlert)])).
  - discriminate.
  - discriminate.
Defined.

(** X15.  The totals of [bucket_totals] on a fetch with one user of
    another role and one announcement without a sender name. *)
Lemma bucket_totals_witness :
  let st := {| reportType := Some announcements_report;
               startDate := None; endDate := None;
               users := mkUser 7 "admin" "2024-01-15" :: scenarioA;
               announcements := mkAnnouncement 4 None "2024-01-10" :: scenarioC |} in
  sumZ (map (fun b => students b + lecturers b)
          (Object_values
             (monthlyDataOf utcRuntime
                (tableData (getUserRegistrationData utcRuntime st))))) = 3
  /\ sumCounts (Object_values
                  (senderDataOf utcRuntime
                     (tableData (getAnnouncementActivityData utcRuntime st))))
     = Some 4.
Proof.
  intros st.
  assert (H : Forall (fun a => inherited (senderOf a) = false)
                (tableData (getAnnouncementActivityData utcRuntime st)))
    by (repeat constructor).
  destruct (bucket_totals utcRuntime st) as (H1 & _ & H3).
  split; [exact H1 | exact (proj1 (H3 H))].
Defined.
